(** * Salesforce account enrichment: the value resolver, the missing-data
      selector, person disambiguation and the enrichment session of
      [src/app.py], as a shallow embedding.

    Python values are a small JSON universe; a Python exception is the
    [Raise] case of the [exn] monad; the Streamlit session state is a record
    that every operation threads explicitly. *)

From Stdlib Require Import ZArith QArith Bool Ascii String List Lia.
From stdpp Require Import base option list gmap strings fin_maps.

Import ListNotations.
Set Warnings "-register-all".
Set Default Proof Using "Type".
Local Open Scope Z_scope.
Local Open Scope string_scope.
Local Open Scope list_scope.

(** ** Python values *)

Module Py.

(** What [response.json()] and the CRM client hand to the script.  A dict
    keeps its insertion order, as Python's does.  A float is a rational:
    NaN and the infinities are left out. *)
Inductive Value : Type :=
| VNone
| VBool (b : bool)
| VInt (n : Z)
| VFloat (q : Q)
| VStr (s : string)
| VList (l : list Value)
| VDict (d : list (string * Value)).

Inductive pyerr : Type :=
| KeyError | TypeError | AttributeError | ValueError | IndexError | StopIteration
| RerunException.

(** A computation that returns or raises. *)
Inductive exn (A : Type) : Type :=
| Ok (a : A)
| Raise (e : pyerr).
Arguments Ok {A} a.
Arguments Raise {A} e.

Definition bind {A B} (m : exn A) (k : A -> exn B) : exn B :=
  match m with
  | Ok a => k a
  | Raise e => Raise e
  end.

Notation "'let*' x ':=' m 'in' k" := (bind m (fun x => k))
  (at level 10, x name, m at level 100, k at level 200).

(** [bool(v)]. *)
Definition truthy (v : Value) : bool :=
  match v with
  | VNone => false
  | VBool b => b
  | VInt n => negb (n =? 0)%Z
  | VFloat q => negb (Qeq_bool q 0)
  | VStr s => negb (String.eqb s "")
  | VList l => match l with [] => false | _ => true end
  | VDict d => match d with [] => false | _ => true end
  end.

(** [v is not None]. *)
Definition is_not_none (v : Value) : bool :=
  match v with
  | VNone => false
  | _ => true
  end.

(** Lookup in a dict body: the first binding of the key. *)
Fixpoint dlookup (k : string) (d : list (string * Value)) : option Value :=
  match d with
  | [] => None
  | (k', v) :: r => if String.eqb k k' then Some v else dlookup k r
  end.

Definition dkeys (d : list (string * Value)) : list string := map fst d.

(** [v.get(k, default)]: only a dict has the method. *)
Definition py_get_default (v : Value) (k : string) (dflt : Value) : exn Value :=
  match v with
  | VDict d => Ok (match dlookup k d with Some x => x | None => dflt end)
  | _ => Raise AttributeError
  end.

(** [v.get(k)]. *)
Definition py_get (v : Value) (k : string) : exn Value :=
  py_get_default v k VNone.

(** [v[k]] for a string key. *)
Definition py_item (v : Value) (k : string) : exn Value :=
  match v with
  | VDict d => match dlookup k d with Some x => Ok x | None => Raise KeyError end
  | _ => Raise TypeError
  end.

(** [v[0]].  The keys of a JSON object are strings, so [0] is never one. *)
Definition py_first (v : Value) : exn Value :=
  match v with
  | VList (x :: _) => Ok x
  | VList [] => Raise IndexError
  | VStr (String c _) => Ok (VStr (String c EmptyString))
  | VStr EmptyString => Raise IndexError
  | VDict _ => Raise KeyError
  | _ => Raise TypeError
  end.

(** [len(v)]. *)
Definition py_len (v : Value) : exn Z :=
  match v with
  | VList l => Ok (Z.of_nat (List.length l))
  | VDict d => Ok (Z.of_nat (List.length d))
  | VStr s => Ok (Z.of_nat (String.length s))
  | _ => Raise TypeError
  end.

(** [v.keys()]. *)
Definition py_keys (v : Value) : exn (list string) :=
  match v with
  | VDict d => Ok (dkeys d)
  | _ => Raise AttributeError
  end.

(** [v.lower()]: only a string has the method.  The ASCII capitals are
    lowered, every other byte is kept. *)
Definition lower_ascii (c : ascii) : ascii :=
  let n := nat_of_ascii c in
  if (Nat.leb 65 n && Nat.leb n 90)%bool then ascii_of_nat (n + 32) else c.

Fixpoint lower (s : string) : string :=
  match s with
  | EmptyString => EmptyString
  | String c r => String (lower_ascii c) (lower r)
  end.

Definition py_lower (v : Value) : exn string :=
  match v with
  | VStr s => Ok (lower s)
  | _ => Raise AttributeError
  end.

(** *** Strings *)

Abbreviation dot := ("."%char) (only parsing).

(** [s.startswith(p)]. *)
Fixpoint startswith (p s : string) : bool :=
  match p, s with
  | EmptyString, _ => true
  | String a p', String b s' => Ascii.eqb a b && startswith p' s'
  | String _ _, EmptyString => false
  end.

(** [s.split('.')]: never empty. *)
Fixpoint split_dot (s : string) : list string :=
  match s with
  | EmptyString => [EmptyString]
  | String c r =>
      if Ascii.eqb c dot then EmptyString :: split_dot r
      else match split_dot r with
           | t :: ts => String c t :: ts
           | [] => [String c EmptyString]
           end
  end.

(** [s.split('.', 1)]: one part when [s] has no dot, else the text before
    the first dot and everything after it. *)
Fixpoint split1 (s : string) : list string :=
  match s with
  | EmptyString => [EmptyString]
  | String c r =>
      if Ascii.eqb c dot then [EmptyString; r]
      else match split1 r with
           | t :: ts => String c t :: ts
           | [] => [String c EmptyString]
           end
  end.

(** [s.split('.')[1]]. *)
Definition second_token (s : string) : exn string :=
  match split_dot s with
  | _ :: t :: _ => Ok t
  | _ => Raise IndexError
  end.

Fixpoint has_dot (s : string) : bool :=
  match s with
  | EmptyString => false
  | String c r => Ascii.eqb c dot || has_dot r
  end.

(** *** [int(s)] on a string

    Surrounding ASCII white space is dropped, one sign is allowed, then
    decimal digits, with single underscores between digits. *)
Definition is_space (c : ascii) : bool :=
  let n := nat_of_ascii c in
  (Nat.eqb n 32 || (Nat.leb 9 n && Nat.leb n 13) || (Nat.leb 28 n && Nat.leb n 31))%bool.

Definition is_digit (c : ascii) : bool :=
  let n := nat_of_ascii c in (Nat.leb 48 n && Nat.leb n 57)%bool.

Definition digit_val (c : ascii) : Z := Z.of_nat (nat_of_ascii c - 48).

Fixpoint lstrip (s : string) : string :=
  match s with
  | EmptyString => EmptyString
  | String c r => if is_space c then lstrip r else s
  end.

Fixpoint rstrip (s : string) : string :=
  match s with
  | EmptyString => EmptyString
  | String c r =>
      match rstrip r with
      | EmptyString => if is_space c then EmptyString else String c EmptyString
      | r' => String c r'
      end
  end.

Fixpoint digits (acc : Z) (after_digit : bool) (s : string) : option Z :=
  match s with
  | EmptyString => if after_digit then Some acc else None
  | String c r =>
      if is_digit c then digits (10 * acc + digit_val c) true r
      else if Ascii.eqb c "_"%char then
             if after_digit then digits acc false r else None
           else None
  end.

Definition parse_int (s : string) : option Z :=
  match rstrip (lstrip s) with
  | String "-"%char r => option_map Z.opp (digits 0 false r)
  | String "+"%char r => digits 0 false r
  | t => digits 0 false t
  end.

Definition py_int (s : string) : exn Z :=
  match parse_int s with
  | Some n => Ok n
  | None => Raise ValueError
  end.

(** [max(keys, key=int)]: the key function runs on every element, in order;
    a later element replaces the running maximum only when strictly
    greater. *)
Fixpoint max_from (best : string) (bn : Z) (ks : list string) : exn string :=
  match ks with
  | [] => Ok best
  | k :: r =>
      let* n := py_int k in
      if (bn <? n)%Z then max_from k n r else max_from best bn r
  end.

Definition py_max_int (ks : list string) : exn string :=
  match ks with
  | [] => Raise ValueError
  | k :: r => let* n := py_int k in max_from k n r
  end.

(** Iterating over a value, as a comprehension does. *)
Fixpoint chars (s : string) : list Value :=
  match s with
  | EmptyString => []
  | String c r => VStr (String c EmptyString) :: chars r
  end.

Definition py_iter (v : Value) : exn (list Value) :=
  match v with
  | VList l => Ok l
  | VDict d => Ok (map VStr (dkeys d))
  | VStr s => Ok (chars s)
  | _ => Raise TypeError
  end.

(** [a == b]: numbers compare by value across bool, int and float, a dict
    compares as a map. *)
Definition as_num (v : Value) : option Q :=
  match v with
  | VBool b => Some (inject_Z (if b then 1 else 0))
  | VInt n => Some (inject_Z n)
  | VFloat q => Some q
  | _ => None
  end.

Fixpoint py_eq (a b : Value) {struct a} : bool :=
  match a, b with
  | VNone, VNone => true
  | VStr s, VStr t => String.eqb s t
  | VList l, VList m =>
      (fix go (l m : list Value) {struct l} : bool :=
         match l, m with
         | [], [] => true
         | x :: l', y :: m' => py_eq x y && go l' m'
         | _, _ => false
         end) l m
  | VDict d, VDict e =>
      Nat.eqb (List.length d) (List.length e) &&
      (fix go (d : list (string * Value)) : bool :=
         match d with
         | [] => true
         | (k, v) :: d' =>
             match dlookup k e with
             | Some w => py_eq v w
             | None => false
             end && go d'
         end) d
  | _, _ =>
      match as_num a, as_num b with
      | Some x, Some y => Qeq_bool x y
      | _, _ => false
      end
  end.

End Py.

(** ** The script *)

Module App.
Import Py.

(** *** Missing-data selector ([fetch_accounts_with_missing_data])

    [st.session_state.selected_fields] is a Python set; the list is its
    iteration order.  [records] is [accounts['records']], the answer of the
    CRM to the query. *)

Record MissingRow : Type := {
  row_Id : Value;
  row_Name : Value;
  row_VatNumber__c : Value;
  row_Missing_Fields : list string
}.

(** [[field for field in selected_fields if not account.get(field)]] *)
Fixpoint missing_fields (selected_fields : list string) (account : Value)
  : exn (list string) :=
  match selected_fields with
  | [] => Ok []
  | field :: r =>
      let* v := py_get account field in
      let* rest := missing_fields r account in
      Ok (if truthy v then rest else field :: rest)
  end.

Definition missing_row (selected_fields : list string) (account : Value)
  : exn (option MissingRow) :=
  let* missing := missing_fields selected_fields account in
  match missing with
  | [] => Ok None
  | _ :: _ =>
      let* id := py_item account "Id" in
      let* name := py_get_default account "Name" (VStr "") in
      let* vat := py_get_default account "VatNumber__c" (VStr "") in
      Ok (Some {| row_Id := id; row_Name := name; row_VatNumber__c := vat;
                  row_Missing_Fields := missing |})
  end.

Fixpoint missing_rows (selected_fields : list string) (records : list Value)
  : exn (list MissingRow) :=
  match records with
  | [] => Ok []
  | account :: r =>
      let* row := missing_row selected_fields account in
      let* rest := missing_rows selected_fields r in
      Ok (match row with Some x => x :: rest | None => rest end)
  end.

Definition fetch_accounts_with_missing_data
  (selected_fields : list string) (records : list Value) : exn (list MissingRow) :=
  match selected_fields with
  | [] => Ok []
  | _ :: _ => missing_rows selected_fields records
  end.

(** *** Value resolver (the body of the mapping loop of [enrich_data]) *)

(** [f"{account_id}_{sf_field}"] *)
Definition selection_key (account_id sf_field : string) : string :=
  account_id ++ "_" ++ sf_field.

(** [field in st.session_state.selected_fields] *)
Definition in_fields (selected_fields : list string) (field : string) : bool :=
  existsb (String.eqb field) selected_fields.

(** Lines 448 to 473: the value of one mapped path, [VNone] when the path
    names nothing. *)
Definition resolve_value (selected_people : gmap string Value)
  (account_id sf_field : string) (data : Value) (category field_path : string)
  : exn Value :=
  if String.eqb category "people" then
    if String.eqb field_path "count" then
      let* people := py_get_default data "people" (VList []) in
      let* n := py_len people in
      Ok (VInt n)
    else if startswith "ceo." field_path then
      let selected_person :=
        match selected_people !! selection_key account_id sf_field with
        | Some p => p
        | None => VNone
        end in
      if truthy selected_person then
        let* ceo_field := second_token field_path in
        py_get selected_person ceo_field
      else Ok VNone
    else Ok VNone
  else if String.eqb category "basic" then
    let* basic := py_get_default data "basic" (VDict []) in
    py_get basic field_path
  else if String.eqb category "financials" && startswith "latest." field_path then
    let* financials := py_get data "financials" in
    if truthy financials then
      let* fin := py_item data "financials" in
      let* years := py_keys fin in
      let* latest_year := py_max_int years in
      let* financial_field := second_token field_path in
      let* fin' := py_item data "financials" in
      let* entry := py_item fin' latest_year in
      py_get entry financial_field
    else Ok VNone
  else if String.eqb category "offices" && startswith "first." field_path then
    let* offices := py_get data "offices" in
    if truthy offices then
      let* n := py_len offices in
      if (0 <? n)%Z then
        let* office_field := second_token field_path in
        let* first := py_first offices in
        py_get first office_field
      else Ok VNone
    else Ok VNone
  else if String.eqb category "eAddresses" && startswith "first." field_path then
    let* eaddresses := py_get data "eAddresses" in
    if truthy eaddresses then
      let* n := py_len eaddresses in
      if (0 <? n)%Z then
        let* eaddress_field := second_token field_path in
        let* first := py_first eaddresses in
        py_get first eaddress_field
      else Ok VNone
    else Ok VNone
  else Ok VNone.

(** What one turn of the mapping loop does. *)
Inductive FieldOutcome : Type :=
| Skipped                 (* [continue] before any value is looked up *)
| Resolved (v : Value)    (* the [try] body reached [if value is not None] *)
| Failed (e : pyerr).     (* the [except] clause: [st.error], [continue] *)

Definition resolve_field (selected_fields : list string)
  (selected_people : gmap string Value) (account_id : string) (data : Value)
  (sf_field profinder_path : string) : FieldOutcome :=
  if negb (in_fields selected_fields sf_field) then Skipped
  else
    match split1 profinder_path with
    | [category; field_path] =>
        match resolve_value selected_people account_id sf_field data
                category field_path with
        | Ok v => Resolved v
        | Raise e => Failed e
        end
    | _ => Skipped
    end.

(** The loop over [field_mappings.items()]: the update payload and the
    paths [st.error] reported. *)
Fixpoint build_update (selected_fields : list string)
  (selected_people : gmap string Value) (account_id : string) (data : Value)
  (mappings : list (string * string))
  (update_data : gmap string Value) (errors : list string)
  : gmap string Value * list string :=
  match mappings with
  | [] => (update_data, errors)
  | (sf_field, profinder_path) :: r =>
      match resolve_field selected_fields selected_people account_id data
              sf_field profinder_path with
      | Skipped =>
          build_update selected_fields selected_people account_id data r
            update_data errors
      | Resolved v =>
          build_update selected_fields selected_people account_id data r
            (if is_not_none v then <[sf_field := v]> update_data else update_data)
            errors
      | Failed _ =>
          build_update selected_fields selected_people account_id data r
            update_data (errors ++ [profinder_path])
      end
  end.

(** *** Session state

    The entries of [st.session_state] the enrichment code reads and writes.
    A key that the script tests with [not in] is an [option]. *)

Record CacheEntry : Type := {
  people_data : Value;
  account_name : Value;
  data : Value
}.

Record Session : Type := {
  selected_fields : list string;
  field_mappings : list (string * string);
  selected_people : gmap string Value;
  show_apply_button : bool;
  enrichment_started : option bool;
  person_selection_state : gmap string CacheEntry;
  selected_accounts : list string;
  enrichment_in_progress : option bool
}.

Definition set_selected_people (f : gmap string Value -> gmap string Value)
  (s : Session) : Session :=
  {| selected_fields := selected_fields s; field_mappings := field_mappings s;
     selected_people := f (selected_people s);
     show_apply_button := show_apply_button s;
     enrichment_started := enrichment_started s;
     person_selection_state := person_selection_state s;
     selected_accounts := selected_accounts s;
     enrichment_in_progress := enrichment_in_progress s |}.

Definition set_show_apply_button (b : bool) (s : Session) : Session :=
  {| selected_fields := selected_fields s; field_mappings := field_mappings s;
     selected_people := selected_people s;
     show_apply_button := b;
     enrichment_started := enrichment_started s;
     person_selection_state := person_selection_state s;
     selected_accounts := selected_accounts s;
     enrichment_in_progress := enrichment_in_progress s |}.

Definition set_enrichment_started (b : bool) (s : Session) : Session :=
  {| selected_fields := selected_fields s; field_mappings := field_mappings s;
     selected_people := selected_people s;
     show_apply_button := show_apply_button s;
     enrichment_started := Some b;
     person_selection_state := person_selection_state s;
     selected_accounts := selected_accounts s;
     enrichment_in_progress := enrichment_in_progress s |}.

Definition set_person_selection_state
  (f : gmap string CacheEntry -> gmap string CacheEntry) (s : Session) : Session :=
  {| selected_fields := selected_fields s; field_mappings := field_mappings s;
     selected_people := selected_people s;
     show_apply_button := show_apply_button s;
     enrichment_started := enrichment_started s;
     person_selection_state := f (person_selection_state s);
     selected_accounts := selected_accounts s;
     enrichment_in_progress := enrichment_in_progress s |}.

Definition set_selected_accounts (l : list string) (s : Session) : Session :=
  {| selected_fields := selected_fields s; field_mappings := field_mappings s;
     selected_people := selected_people s;
     show_apply_button := show_apply_button s;
     enrichment_started := enrichment_started s;
     person_selection_state := person_selection_state s;
     selected_accounts := l;
     enrichment_in_progress := enrichment_in_progress s |}.

Definition set_enrichment_in_progress (b : bool) (s : Session) : Session :=
  {| selected_fields := selected_fields s; field_mappings := field_mappings s;
     selected_people := selected_people s;
     show_apply_button := show_apply_button s;
     enrichment_started := enrichment_started s;
     person_selection_state := person_selection_state s;
     selected_accounts := selected_accounts s;
     enrichment_in_progress := Some b |}.

(** One run of the script: the session state and what the run did to the
    outside (the CRM updates it attempted, the paths [st.error] reported). *)
Record Run : Type := {
  ss : Session;
  crm_updates : list (string * gmap string Value);
  reported : list string
}.

Definition on_ss (f : Session -> Session) (r : Run) : Run :=
  {| ss := f (ss r); crm_updates := crm_updates r; reported := reported r |}.

(** State that survives an exception, as [st.session_state] does. *)
Definition M (A : Type) : Type := Run -> Run * exn A.

Definition ret {A} (a : A) : M A := fun r => (r, Ok a).

Definition mbind {A B} (m : M A) (k : A -> M B) : M B :=
  fun r => match m r with
           | (r', Ok a) => k a r'
           | (r', Raise e) => (r', Raise e)
           end.

Definition lift {A} (m : exn A) : M A := fun r => (r, m).

Definition get_ss : M Session := fun r => (r, Ok (ss r)).

Definition modify (f : Session -> Session) : M unit :=
  fun r => (on_ss f r, Ok tt).

Definition crm_update (account_id : string) (update_data : gmap string Value)
  : M unit :=
  fun r => ({| ss := ss r;
               crm_updates := crm_updates r ++ [(account_id, update_data)];
               reported := reported r |}, Ok tt).

Definition st_errors (paths : list string) : M unit :=
  fun r => ({| ss := ss r; crm_updates := crm_updates r;
               reported := reported r ++ paths |}, Ok tt).

Notation "'do' x '<-' m ';' k" := (mbind m (fun x => k))
  (at level 10, x name, m at level 100, k at level 200).
Notation "'do_' m ';' k" := (mbind m (fun _ => k))
  (at level 10, m at level 100, k at level 200).

(** *** Person disambiguation ([show_person_selector]) *)

(** [[p['fullName'] for p in people_data]] *)
Fixpoint full_names (people : list Value) : exn (list Value) :=
  match people with
  | [] => Ok []
  | p :: r =>
      let* n := py_item p "fullName" in
      let* ns := full_names r in
      Ok (n :: ns)
  end.

(** [next((p for p in people_data if p['title'].lower() == 'toimitusjohtaja'),
    None)] *)
Fixpoint find_ceo (people : list Value) : exn Value :=
  match people with
  | [] => Ok VNone
  | p :: r =>
      let* title := py_item p "title" in
      let* t := py_lower title in
      if String.eqb t "toimitusjohtaja" then Ok p else find_ceo r
  end.

(** [next(p for p in people_data if p['fullName'] == selected_name)] *)
Fixpoint find_named (selected_name : Value) (people : list Value) : exn Value :=
  match people with
  | [] => Raise StopIteration
  | p :: r =>
      let* n := py_item p "fullName" in
      if py_eq n selected_name then Ok p else find_named selected_name r
  end.

(** [people_names.index(x)], with the [ValueError] of a miss as [None]. *)
Fixpoint index_of (x : Value) (l : list Value) : option nat :=
  match l with
  | [] => None
  | y :: r => if py_eq y x then Some O else option_map S (index_of x r)
  end.

Section World.

(** The collaborators: the CRM client, the provider and the operator. *)
Variable Account_get : string -> exn Value.
Variable fetch_profinder_data : Value -> Value.
Variable Account_update : string -> gmap string Value -> bool.
Variable selectbox : string -> list Value -> nat -> Value.

Definition store_selection (key : string) (person : Value) : M unit :=
  do_ modify (set_selected_people (fun m => <[key := person]> m));
  modify (set_show_apply_button true).

Definition show_person_selector (account_id : string) (vat_number : Value)
  (sf_field : string) (people_data : Value) : M bool :=
  let key := selection_key account_id sf_field in
  do people <- lift (py_iter people_data);
  do people_options <- lift (full_names people);
  do ceo <- lift (find_ceo people);
  if truthy ceo then
    do_ store_selection key ceo;
    ret true
  else
    do people_names <- lift (full_names people);
    do s <- get_ss;
    let current_selection :=
      match selected_people s !! key with Some p => p | None => VNone end in
    do default_index <-
      (if truthy current_selection then
         do n <- lift (py_item current_selection "fullName");
         ret (match index_of n people_names with Some i => i | None => O end)
       else ret O);
    let selected_name :=
      selectbox ("person_select_" ++ key) people_names default_index in
    if truthy selected_name then
      do selected_person <- lift (find_named selected_name people);
      do_ store_selection key selected_person;
      ret true
    else ret false.

(** *** The orchestrator ([enrich_data]) *)

Inductive LogEntry : Type :=
| NoVat (name : Value)          (* "No VAT number found for account ..." *)
| FetchFailed (name : Value)    (* "Failed to fetch data for account ..." *)
| Updated (name : Value)        (* "Updated Account Name ... with data from Profinder." *)
| UpdateError (name : Value)    (* "Error updating ...: ..." *)
| NoMatch (name : Value).       (* "No matching data found in Profinder for Account ..." *)

(** The locals of the first pass. *)
Record FirstPass : Type := {
  logs : list LogEntry;
  person_selection_needed : bool;
  all_selections_complete : bool
}.

Definition add_log (e : LogEntry) (a : FirstPass) : FirstPass :=
  {| logs := logs a ++ [e];
     person_selection_needed := person_selection_needed a;
     all_selections_complete := all_selections_complete a |}.

(** Lines 395 to 414: one selector per in-scope field mapped to
    [people.ceo.*]. *)
Fixpoint selector_loop (account_id : string) (vat_number : Value)
  (people : Value) (mappings : list (string * string)) (a : FirstPass)
  : M FirstPass :=
  match mappings with
  | [] => ret a
  | (sf_field, profinder_path) :: r =>
      do s <- get_ss;
      if in_fields (selected_fields s) sf_field then
        match split1 profinder_path with
        | [category; field_path] =>
            if String.eqb category "people" && startswith "ceo." field_path then
              do selection_made <-
                show_person_selector account_id vat_number sf_field people;
              selector_loop account_id vat_number people r
                {| logs := logs a;
                   person_selection_needed := true;
                   all_selections_complete :=
                     all_selections_complete a && selection_made |}
            else selector_loop account_id vat_number people r a
        | _ => selector_loop account_id vat_number people r a
        end
      else selector_loop account_id vat_number people r a
  end.

(** Lines 372 to 414 for one account. *)
Definition fetch_account (account_id : string) (a : FirstPass) : M FirstPass :=
  do account <- lift (Account_get account_id);
  do vat_number <- lift (py_get account "VatNumber__c");
  if negb (truthy vat_number) then
    do name <- lift (py_item account "Name");
    ret (add_log (NoVat name) a)
  else
    do s <- get_ss;
    do cached <-
      (match person_selection_state s !! account_id with
       | Some _ => ret true
       | None =>
           let fetched := fetch_profinder_data vat_number in
           do usable <-
             (if negb (truthy fetched) then ret false
              else do success <- lift (py_get fetched "success");
                   ret (truthy success));
           if usable then
             do people <- lift (py_get_default fetched "people" (VList []));
             do name <- lift (py_item account "Name");
             do_ modify (set_person_selection_state (fun m =>
                   <[account_id := {| people_data := people;
                                      account_name := name;
                                      data := fetched |}]> m));
             ret true
           else ret false
       end);
    if cached then
      do s' <- get_ss;
      match person_selection_state s' !! account_id with
      | Some entry =>
          selector_loop account_id vat_number (people_data entry)
            (field_mappings s') a
      | None => lift (Raise KeyError)
      end
    else
      do name <- lift (py_item account "Name");
      ret (add_log (FetchFailed name) a).

Fixpoint fetch_loop (accounts : list string) (a : FirstPass) : M FirstPass :=
  match accounts with
  | [] => ret a
  | account_id :: r =>
      do a' <- fetch_account account_id a;
      fetch_loop r a'
  end.

(** Line 420. *)
Definition apply_offered (a : FirstPass) (show_apply : bool) : bool :=
  negb (person_selection_needed a)
  || (person_selection_needed a && all_selections_complete a && show_apply).

(** Lines 429 to 492 for one account. *)
Definition apply_account (account_id : string) (lg : list LogEntry)
  : M (list LogEntry) :=
  do account <- lift (Account_get account_id);
  do s <- get_ss;
  match person_selection_state s !! account_id with
  | None => ret lg
  | Some entry =>
      let '(update_data, errors) :=
        build_update (selected_fields s) (selected_people s) account_id
          (data entry) (field_mappings s) ∅ [] in
      do_ st_errors errors;
      if negb (Nat.eqb (size update_data) 0) then
        do_ crm_update account_id update_data;
        do name <- lift (py_item account "Name");
        ret (lg ++ [if Account_update account_id update_data
                    then Updated name else UpdateError name])
      else
        do name <- lift (py_item account "Name");
        ret (lg ++ [NoMatch name])
  end.

Fixpoint apply_loop (accounts : list string) (lg : list LogEntry)
  : M (list LogEntry) :=
  match accounts with
  | [] => ret lg
  | account_id :: r =>
      do lg' <- apply_account account_id lg;
      apply_loop r lg'
  end.

(** Lines 494 to 499. *)
Definition reset_after_update (s : Session) : Session :=
  set_selected_accounts []
    (set_show_apply_button false
       (set_selected_people (fun _ => ∅)
          (set_person_selection_state (fun _ => ∅)
             (set_enrichment_started false s)))).

(** What a run of [enrich_data] shows and returns. *)
Record Enriched : Type := {
  enrich_logs : list LogEntry;
  first_pass : FirstPass;    (* the locals of the first pass, at line 416 *)
  button_offered : bool;     (* the "Apply Enrichment" button was rendered *)
  perform_update : bool
}.

(** [apply_clicked]: the operator pressed "Apply Enrichment", which matters
    only in a run that renders the button. *)
Definition enrich_data (apply_clicked : bool) (account_ids : list string)
  : M Enriched :=
  do s0 <- get_ss;
  do_ (match enrichment_started s0 with
       | None =>
           do_ modify (set_enrichment_started false);
           do_ modify (set_person_selection_state (fun _ => ∅));
           modify (set_selected_accounts account_ids)
       | Some _ => ret tt
       end);
  do s1 <- get_ss;
  do_ (if negb (match enrichment_started s1 with Some b => b | None => false end)
       then do_ modify (set_enrichment_started true);
            modify (set_selected_accounts account_ids)
       else ret tt);
  do s2 <- get_ss;
  do a <- fetch_loop (selected_accounts s2)
            {| logs := []; person_selection_needed := false;
               all_selections_complete := true |};
  do s3 <- get_ss;
  let offered := apply_offered a (show_apply_button s3) in
  let perform := offered && apply_clicked in
  if perform then
    do lg <- apply_loop (selected_accounts s3) (logs a);
    do_ modify reset_after_update;
    ret {| enrich_logs := lg; first_pass := a; button_offered := offered;
           perform_update := true |}
  else
    ret {| enrich_logs := logs a; first_pass := a; button_offered := offered;
           perform_update := false |}.

(** *** The enrichment section of the page (lines 526 to 550) *)

Inductive Click : Type :=
| NoClick
| ClickEnrich      (* "Enrich from Profinder" *)
| ClickBack        (* "<- Back" *)
| ClickApply.      (* "Apply Enrichment" *)

(** Lines 543 to 546. *)
Definition cancel (s : Session) : Session :=
  set_show_apply_button false
    (set_selected_people (fun _ => ∅)
       (set_person_selection_state (fun _ => ∅)
          (set_enrichment_in_progress false s))).

Definition in_progress (s : Session) : bool :=
  match enrichment_in_progress s with
  | Some b => b
  | None => false
  end.

(** [checked] is the list of account ids whose check box is ticked.  A
    button is pressed only in a run that renders it; [st.rerun()] ends the
    run with [RerunException]. *)
Definition enrichment_section (click : Click) (checked : list string)
  : M (option Enriched) :=
  do s0 <- get_ss;
  do_ (match enrichment_in_progress s0 with
       | None => modify (set_enrichment_in_progress false)
       | Some _ => ret tt
       end);
  match checked with
  | [] => ret None
  | _ :: _ =>
      do s1 <- get_ss;
      do_ (if negb (in_progress s1) then
             match click with
             | ClickEnrich =>
                 do_ modify (set_enrichment_in_progress true);
                 do_ modify (set_selected_accounts checked);
                 lift (Raise RerunException)
             | _ => ret tt
             end
           else ret tt);
      do s2 <- get_ss;
      if in_progress s2 then
        do_ (match click with
             | ClickBack =>
                 do_ modify cancel;
                 lift (Raise RerunException)
             | _ => ret tt
             end);
        do s3 <- get_ss;
        do e <- enrich_data (match click with ClickApply => true | _ => false end)
                  (selected_accounts s3);
        ret (Some e)
      else ret None
  end.

End World.

End App.

(** ** The page around the session *)

Module Page.
Import Py App.

(** [get_profinder_fields]: the provider's fields by category, each with its
    label, in the order of the source. *)
Definition get_profinder_fields : list (string * list (string * string)) :=
  [("basic",
    [("name", "Company Name"); ("marketingName", "Marketing Name");
     ("businessId", "Business ID"); ("businessForm", "Business Form");
     ("founded", "Founded Date"); ("phoneNumber", "Phone Number");
     ("email", "Email"); ("www", "Website"); ("PO_street", "Street Address");
     ("PO_postalCode", "Postal Code"); ("PO_postalCodeName", "City");
     ("industry", "Industry"); ("tol2008", "Industry Code (TOL2008)");
     ("turnoverCategory", "Turnover Category");
     ("staffCategory", "Staff Category"); ("riskClass", "Risk Class");
     ("growthClass", "Growth Class"); ("address", "Full Address");
     ("authorizationToSign", "Authorization to Sign");
     ("hometown", "Hometown")]);
   ("financials",
    [("latest.turnover", "Latest Turnover");
     ("latest.turnoverChange", "Latest Turnover Change %");
     ("latest.operatingMargin", "Latest Operating Margin");
     ("latest.operatingProfit", "Latest Operating Profit");
     ("latest.profit", "Latest Profit");
     ("latest.quickRatio", "Latest Quick Ratio");
     ("latest.currentRatio", "Latest Current Ratio");
     ("latest.equity", "Latest Equity");
     ("latest.balanceSheetTotal", "Latest Balance Sheet Total");
     ("latest.staff", "Latest Staff Count");
     ("latest.staffChange", "Latest Staff Change %");
     ("latest.turnoverPerPerson", "Latest Turnover per Person")]);
   ("offices",
    [("first.name", "Office Name");
     ("first.marketingName", "Office Marketing Name");
     ("first.city", "Office City")]);
   ("people",
    [("count", "Number of Employees"); ("ceo.fullName", "CEO Name");
     ("ceo.title", "CEO Title"); ("ceo.phoneNumberExists", "CEO Has Phone")]);
   ("eAddresses",
    [("first.id", "E-invoice ID"); ("first.idType", "E-invoice ID Type");
     ("first.serviceID", "E-invoice Service ID")])].

(** The default mappings of [initialize_credentials]. *)
Definition default_field_mappings : list (string * string) :=
  [("Name", "basic.name"); ("Phone", "basic.phoneNumber");
   ("Yhteyshenkilo__c", "people.ceo.fullName");
   ("Employee_Count__c", "basic.staffCategory");
   ("AnnualRevenue", "financials.latest.turnover");
   ("NumberOfEmployees", "people.count"); ("Industry", "basic.industry");
   ("Kasvuluokka__c", "basic.growthClass"); ("Website", "basic.www");
   ("Email__c", "basic.email");
   ("Account_Marketing_Name__c", "basic.marketingName")].

(** The [field_mappings] dict: [d.get(k)], [d[k] = v] (an existing key keeps
    its place, a new one goes last) and [del d[k]]. *)
Fixpoint dict_get (k : string) (d : list (string * string)) : option string :=
  match d with
  | [] => None
  | (k', v) :: r => if String.eqb k k' then Some v else dict_get k r
  end.

Fixpoint dict_set (k v : string) (d : list (string * string))
  : list (string * string) :=
  match d with
  | [] => [(k, v)]
  | (k', v') :: r =>
      if String.eqb k k' then (k, v) :: r else (k', v') :: dict_set k v r
  end.

Fixpoint dict_del (k : string) (d : list (string * string))
  : list (string * string) :=
  match d with
  | [] => []
  | (k', v') :: r => if String.eqb k k' then r else (k', v') :: dict_del k r
  end.

(** [l.index(x) if x in l else 0] *)
Fixpoint index_or_0 (x : string) (l : list string) : nat :=
  match l with
  | [] => O
  | y :: r =>
      if String.eqb y x then O
      else if existsb (String.eqb x) r then S (index_or_0 x r) else O
  end.

(** [profinder_fields[category]] *)
Fixpoint catalog_item (category : string)
  (catalog : list (string * list (string * string)))
  : exn (list (string * string)) :=
  match catalog with
  | [] => Raise KeyError
  | (c, fields) :: r =>
      if String.eqb category c then Ok fields else catalog_item category r
  end.

Section Mapping.

(** [st.selectbox] over strings: widget key, options, index of the option
    shown first; the answer is the option the operator left selected. *)
Variable selectbox : string -> list string -> nat -> string.

(** Lines 210 to 260: the row of the mapping form for one field. *)
Definition mapping_row (sf_field : string)
  (field_mappings : list (string * string)) : exn (list (string * string)) :=
  let current_mapping :=
    match dict_get sf_field field_mappings with Some p => p | None => "" end in
  let current_category :=
    if negb (String.eqb current_mapping "")
    then match split_dot current_mapping with c :: _ => c | [] => "" end
    else "" in
  let categories := "" :: map fst get_profinder_fields in
  let selected_category :=
    selectbox ("category_select_" ++ sf_field) categories
      (index_or_0 current_category categories) in
  if negb (String.eqb selected_category "") then
    let* category_fields := catalog_item selected_category get_profinder_fields in
    let field_options :=
      "" :: map (fun kv => (selected_category ++ "." ++ fst kv)%string)
              category_fields in
    let selected_field :=
      selectbox ("field_select_" ++ sf_field) field_options
        (index_or_0 current_mapping field_options) in
    if negb (String.eqb selected_field "") then
      Ok (dict_set sf_field selected_field field_mappings)
    else
      match dict_get sf_field field_mappings with
      | Some _ => Ok (dict_del sf_field field_mappings)
      | None => Ok field_mappings
      end
  else Ok field_mappings.

(** Line 209: the rows, for the fields of interest in the order the page
    shows them. *)
Fixpoint mapping_rows (fields : list string)
  (field_mappings : list (string * string)) : exn (list (string * string)) :=
  match fields with
  | [] => Ok field_mappings
  | sf_field :: r =>
      let* m := mapping_row sf_field field_mappings in
      mapping_rows r m
  end.

End Mapping.

Section Ticks.

(** [st.session_state] turns the key it is given into a string. *)
Variable state_key : Value -> string.

(** Lines 504 to 506: [select_all_accounts]. *)
Fixpoint select_all_accounts (accounts : list MissingRow)
  (state : gmap string Value) : gmap string Value :=
  match accounts with
  | [] => state
  | account :: r =>
      select_all_accounts r (<[state_key (row_Id account) := VBool true]> state)
  end.

(** Line 523: the ids of the ticked accounts. *)
Definition ticked_accounts (accounts : list MissingRow)
  (state : gmap string Value) : list Value :=
  map row_Id
    (List.filter
       (fun account =>
          truthy (match state !! state_key (row_Id account) with
                  | Some v => v
                  | None => VNone
                  end)) accounts).

End Ticks.

End Page.

(** * Vocabulary of the properties *)

Import Py App Page.

(** What the mapping loop makes of a lookup that returned or raised. *)
Definition outcome_of (r : exn Value) : FieldOutcome :=
  match r with
  | Ok v => Resolved v
  | Raise e => Failed e
  end.

(** The spec's example: three years in any order, the entry of 2023 is read. *)
Definition years_example (k1 k2 k3 : string) : Value :=
  VDict [("success", VBool true);
         ("financials",
          VDict [(k1, VDict [("turnover", VStr k1)]);
                 (k2, VDict [("turnover", VStr k2)]);
                 (k3, VDict [("turnover", VStr k3)])])].

(** A [financials] map whose latest year is neither first nor last. *)
Definition fin_example : list (string * Value) :=
  [("2021", VDict [("turnover", VInt 1)]);
   ("2023", VDict [("turnover", VInt 3)]);
   ("2022", VDict [("turnover", VInt 2)])].

(** [field_mappings.get(f)] *)
Fixpoint mapping_of (f : string) (mappings : list (string * string))
  : option string :=
  match mappings with
  | [] => None
  | (g, p) :: r => if String.eqb f g then Some p else mapping_of f r
  end.

(** What the payload holds for a field once the loop is over. *)
Definition payload_entry (sf : list string) (sp : gmap string Value)
  (aid : string) (dat : Value) (f : string) (mapped : option string)
  (before : option Value) : option Value :=
  match mapped with
  | Some path =>
      match resolve_field sf sp aid dat f path with
      | Resolved v => if is_not_none v then Some v else before
      | _ => before
      end
  | None => before
  end.

(** The test of lines 450 to 470: the category and the remainder name a
    branch that looks a value up. *)
Definition recognised (category field_path : string) : bool :=
  (String.eqb category "people"
   && (String.eqb field_path "count" || startswith "ceo." field_path))
  || String.eqb category "basic"
  || (String.eqb category "financials" && startswith "latest." field_path)
  || (String.eqb category "offices" && startswith "first." field_path)
  || (String.eqb category "eAddresses" && startswith "first." field_path).

(** What a successful selector does to the session: one selection stored
    under the key of the record and field, and the button flag raised. *)
Definition with_selection (key : string) (p : Value) (s : Session) : Session :=
  set_show_apply_button true (set_selected_people (fun m => <[key := p]> m) s).

(** [p['title'].lower() == 'toimitusjohtaja'], false when the title cannot
    be read. *)
Definition is_ceo_title (p : Value) : bool :=
  match py_item p "title" with
  | Ok t => match py_lower t with
            | Ok s => String.eqb s "toimitusjohtaja"
            | Raise _ => false
            end
  | Raise _ => false
  end.

(** A person document as the selector reads it: a dict with a [fullName]
    and a string [title]. *)
Definition well_formed_person (p : Value) : bool :=
  match p with
  | VDict d =>
      match dlookup "fullName" d, dlookup "title" d with
      | Some _, Some (VStr _) => true
      | _, _ => false
      end
  | _ => false
  end.

(** The managing director is found when listed last, in capitals. *)
Definition people_example : list Value :=
  [VDict [("fullName", VStr "Aino Virtanen"); ("title", VStr "Talousjohtaja")];
   VDict [("fullName", VStr "Mika Laine"); ("title", VStr "TOIMITUSJOHTAJA")]].

Definition run_example : Run :=
  {| ss := {| selected_fields := ["Yhteyshenkilo__c"];
              field_mappings := [("Yhteyshenkilo__c", "people.ceo.fullName")];
              selected_people := ∅; show_apply_button := false;
              enrichment_started := Some true;
              person_selection_state := ∅;
              selected_accounts := ["001"];
              enrichment_in_progress := Some true |};
     crm_updates := []; reported := [] |}.

(** [account.get(field)] on a record. *)
Definition field_value (d : list (string * Value)) (field : string) : Value :=
  match dlookup field d with
  | Some v => v
  | None => VNone
  end.

(** [not account.get(field)] *)
Definition is_missing (d : list (string * Value)) (field : string) : bool :=
  negb (truthy (field_value d field)).

(** A record of the query answer: a dict with its [Id]. *)
Definition has_id (account : Value) : bool :=
  match account with
  | VDict d => match dlookup "Id" d with Some _ => true | None => false end
  | _ => false
  end.

Definition row_of (sf : list string) (account : Value) : list MissingRow :=
  match account with
  | VDict d =>
      match List.filter (is_missing d) sf with
      | [] => []
      | missing =>
          [{| row_Id := field_value d "Id";
              row_Name := match dlookup "Name" d with
                          | Some v => v | None => VStr "" end;
              row_VatNumber__c := match dlookup "VatNumber__c" d with
                                  | Some v => v | None => VStr "" end;
              row_Missing_Fields := missing |}]
      end
  | _ => []
  end.

(** The spec's scenario: record R with a blank Phone. *)
Definition record_R : Value :=
  VDict [("Id", VStr "001"); ("Name", VStr "R"); ("Phone", VNone);
         ("VatNumber__c", VStr "FI123")].

Definition record_full : Value :=
  VDict [("Id", VStr "002"); ("Name", VStr "S"); ("Phone", VStr "+358401234567");
         ("VatNumber__c", VStr "FI456")].

(** A head count that really is 0 sends the record to enrichment. *)
Definition record_zero : Value :=
  VDict [("Id", VStr "003"); ("Name", VStr "T"); ("NumberOfEmployees", VInt 0);
         ("VatNumber__c", VStr "FI789")].

(** What the first pass may do to the session: it adds selections, adds
    cache entries and raises the button flag, and nothing else. *)
Record grows (s s' : Session) : Prop := {
  grows_fields : selected_fields s' = selected_fields s;
  grows_mappings : field_mappings s' = field_mappings s;
  grows_accounts : selected_accounts s' = selected_accounts s;
  grows_started : enrichment_started s' = enrichment_started s;
  grows_in_progress : enrichment_in_progress s' = enrichment_in_progress s;
  grows_people :
    forall k, is_Some (selected_people s !! k) -> is_Some (selected_people s' !! k);
  grows_cache :
    forall k, is_Some (person_selection_state s !! k) ->
              person_selection_state s' !! k = person_selection_state s !! k;
  grows_button : show_apply_button s = true -> show_apply_button s' = true
}.

Definition extends (r r' : Run) : Prop :=
  grows (ss r) (ss r') /\ crm_updates r' = crm_updates r /\ reported r' = reported r.

(** A computation that only extends the run. *)
Definition extending {A} (m : M A) : Prop := forall r, extends r (fst (m r)).

(** The test of lines 396 to 402: the field is in scope and mapped to a
    [people.ceo.*] path. *)
Definition needs_ceo (sf : list string) (m : string * string) : bool :=
  in_fields sf (fst m)
  && match split1 (snd m) with
     | [category; field_path] =>
         String.eqb category "people" && startswith "ceo." field_path
     | _ => false
     end.

(** Field [f] of the session asks for a person selection. *)
Definition required (s : Session) (f : string) : Prop :=
  exists path, In (f, path) (field_mappings s) /\
               needs_ceo (selected_fields s) (f, path) = true.

(** The button flag is up whenever a selector ran and all of them
    completed. *)
Definition flag_ok (a : FirstPass) (r : Run) : Prop :=
  person_selection_needed a = true -> all_selections_complete a = true ->
  show_apply_button (ss r) = true.

(** The record is processed in this session: the CRM returns it with a
    VAT number. *)
Definition vat_ok (Account_get : string -> exn Value) (aid : string) : Prop :=
  exists account vat,
    Account_get aid = Ok account /\ py_get account "VatNumber__c" = Ok vat /\
    truthy vat = true.

(** Lines 352 to 360: what entering [enrich_data] does to the session. *)
Definition start_session (account_ids : list string) (s : Session) : Session :=
  let s1 :=
    match enrichment_started s with
    | None =>
        set_selected_accounts account_ids
          (set_person_selection_state (fun _ => ∅) (set_enrichment_started false s))
    | Some _ => s
    end in
  if negb (match enrichment_started s1 with Some b => b | None => false end)
  then set_selected_accounts account_ids (set_enrichment_started true s1)
  else s1.

Definition first_pass_init : FirstPass :=
  {| logs := []; person_selection_needed := false;
     all_selections_complete := true |}.

(** The session has nothing cached, nothing selected and no record list. *)
Definition session_cleared (s : Session) : Prop :=
  person_selection_state s = ∅ /\ selected_people s = ∅ /\
  selected_accounts s = [] /\ show_apply_button s = false.

(** Idle: the page offers "Enrich from Profinder" and does not run
    [enrich_data]. *)
Definition idle (s : Session) : Prop := in_progress s = false.

(** The CRM holds one account; the provider knows its company, with the
    managing director listed last; the CRM rejects every update; the
    operator never touches a select box. *)
Definition crm_example (aid : string) : exn Value :=
  Ok (VDict [("Id", VStr aid); ("Name", VStr "R"); ("Phone", VNone);
             ("VatNumber__c", VStr "FI123")]).

Definition provider_example (vat : Value) : Value :=
  VDict [("success", VBool true);
         ("basic", VDict [("phoneNumber", VStr "+358401234567")]);
         ("people", VList people_example)].

Definition crm_rejects (aid : string) (update_data : gmap string Value) : bool :=
  false.

Definition no_operator (key : string) (options : list Value) (index : nat) : Value :=
  VNone.

Definition session_example : Run :=
  {| ss := {| selected_fields := ["Phone"; "Yhteyshenkilo__c"];
              field_mappings := [("Phone", "basic.phoneNumber");
                                 ("Yhteyshenkilo__c", "people.ceo.fullName")];
              selected_people := ∅; show_apply_button := false;
              enrichment_started := None;
              person_selection_state := ∅;
              selected_accounts := ["001"];
              enrichment_in_progress := Some true |};
     crm_updates := []; reported := [] |}.

Definition first_run_example : Run * exn Enriched :=
  enrich_data crm_example provider_example crm_rejects no_operator false ["001"]
    session_example.

Definition offered_example : Enriched :=
  {| enrich_logs := [];
     first_pass := {| logs := []; person_selection_needed := true;
                      all_selections_complete := true |};
     button_offered := true; perform_update := false |}.

(** The operator presses Apply on the page the first run left; the CRM
    rejects the update. *)
Definition apply_run_example : Run * exn (option Enriched) :=
  enrichment_section crm_example provider_example crm_rejects no_operator
    ClickApply ["001"] (fst first_run_example).

Definition applied_example : Enriched :=
  {| enrich_logs := [UpdateError (VStr "R")];
     first_pass := {| logs := []; person_selection_needed := true;
                      all_selections_complete := true |};
     button_offered := true; perform_update := true |}.

(** The payload, and the reported paths, that the apply pass builds for a
    cached record. *)
Definition payload_for (s : Session) (aid : string) (entry : CacheEntry)
  : gmap string Value * list string :=
  build_update (selected_fields s) (selected_people s) aid (data entry)
    (field_mappings s) ∅ [].

(** The records of a list that the session has a provider document for. *)
Definition cached_accounts (s : Session) (accounts : list string) : list string :=
  List.filter
    (fun aid => match person_selection_state s !! aid with
                | Some _ => true
                | None => false
                end) accounts.

(** Every path the mapping form can offer. *)
Definition catalog_paths : list string :=
  flat_map (fun cf => map (fun kv => (fst cf ++ "." ++ fst kv)%string) (snd cf))
    get_profinder_fields.

(** The resolver has a branch for the path, and reads one attribute. *)
Definition resolvable (path : string) : bool :=
  match split1 path with
  | [category; rest] =>
      recognised category rest
      && (String.eqb category "basic" || String.eqb rest "count"
          || match split_dot rest with
             | [_; _] => true
             | _ => false
             end)
  | _ => false
  end.

(** The select box answers with one of its options, when it has any. *)
Definition picks_an_option (selectbox : string -> list string -> nat -> string)
  : Prop :=
  forall key options index,
    options <> [] -> In (selectbox key options index) options.

(** The mappings are a dict (no key twice) that holds offered paths only. *)
Definition catalog_mappings (m : list (string * string)) : Prop :=
  List.NoDup (map fst m) /\
  forall g path, dict_get g m = Some path -> In path catalog_paths.

(** A record of the query answer is a dict. *)
Definition is_dict (v : Value) : bool :=
  match v with
  | VDict _ => true
  | _ => false
  end.

(** An account the CRM holds without a VAT number. *)
Definition crm_no_vat (aid : string) : exn Value :=
  Ok (VDict [("Id", VStr aid); ("Name", VStr "S"); ("VatNumber__c", VNone)]).

(** A provider that answers nothing. *)
Definition provider_down (vat : Value) : Value := VNone.

(** People without a managing director, and an operator who picks the
    second of them. *)
Definition people_no_ceo : list Value :=
  [VDict [("fullName", VStr "Aino Virtanen"); ("title", VStr "Talousjohtaja")];
   VDict [("fullName", VStr "Mika Laine"); ("title", VStr "Myyntijohtaja")]].

Definition operator_picks_mika (key : string) (options : list Value) (index : nat)
  : Value := VStr "Mika Laine".

(** An operator who always takes the last option of a select box. *)
Definition pick_last (key : string) (options : list string) (index : nat)
  : string := List.last options "".

(** A record with a blank telephone number and no [Id]. *)
Definition record_no_id : Value :=
  VDict [("Name", VStr "U"); ("Phone", VStr ""); ("VatNumber__c", VStr "FI000")].

(** A person document with a [fullName]. *)
Definition has_full_name (p : Value) : bool :=
  match p with
  | VDict d => match dlookup "fullName" d with Some _ => true | None => false end
  | _ => false
  end.

(** Two managing directors, and a last entry without a title. *)
Definition people_two_ceos : list Value :=
  [VDict [("fullName", VStr "Aino Virtanen"); ("title", VStr "Talousjohtaja")];
   VDict [("fullName", VStr "Mika Laine"); ("title", VStr "Toimitusjohtaja")];
   VDict [("fullName", VStr "Olli Niemi"); ("title", VStr "toimitusjohtaja")];
   VDict [("fullName", VStr "Eeva Salo")]].

(** The managing director, and an entry without a name. *)
Definition people_nameless : list Value :=
  [VDict [("fullName", VStr "Mika Laine"); ("title", VStr "Toimitusjohtaja")];
   VDict [("title", VStr "Talousjohtaja")]].

(** * Properties *)

(** ** Strings and paths *)

Lemma split_dot_no_dot (s : string) :
  has_dot s = false -> split_dot s = [s].
Proof.
  induction s as [|c r IH]; simpl; [reflexivity|].
  destruct (Ascii.eqb c dot); simpl; [discriminate|].
  intros H. rewrite (IH H). reflexivity.
Qed.

Lemma split1_no_dot (s : string) :
  has_dot s = false -> split1 s = [s].
Proof.
  induction s as [|c r IH]; simpl; [reflexivity|].
  destruct (Ascii.eqb c dot); simpl; [discriminate|].
  intros H. rewrite (IH H). reflexivity.
Qed.

Lemma split1_at_dot (c r : string) :
  has_dot c = false -> split1 (c ++ "." ++ r) = [c; r].
Proof.
  induction c as [|a c IH]; simpl; [reflexivity|].
  destruct (Ascii.eqb a dot); simpl; [discriminate|].
  intros H. rewrite (IH H). reflexivity.
Qed.

Lemma second_token_after (p x : string) :
  has_dot p = false -> has_dot x = false ->
  second_token (p ++ "." ++ x) = Ok x.
Proof.
  intros Hp Hx. unfold second_token.
  assert (E : split_dot (p ++ "." ++ x) = [p; x]).
  { clear -Hp Hx. induction p as [|a p IH]; simpl in *.
    - change (split_dot (String dot x) = [""; x]). simpl.
      rewrite (split_dot_no_dot x Hx). reflexivity.
    - destruct (Ascii.eqb a dot); simpl in *; [discriminate|].
      rewrite (IH Hp). reflexivity. }
  rewrite E. reflexivity.
Qed.

Lemma startswith_app (p s : string) : startswith p (p ++ s)%string = true.
Proof.
  induction p as [|a p IH]; simpl; [reflexivity|].
  rewrite Ascii.eqb_refl. exact IH.
Qed.

Lemma string_app_inj_l (p s t : string) : (p ++ s = p ++ t)%string -> s = t.
Proof.
  induction p as [|a p IH]; simpl; intros H; [exact H|].
  injection H as H. exact (IH H).
Qed.

(** Two fields of one record never share a selection key. *)
Lemma selection_key_inj (account_id f g : string) :
  selection_key account_id f = selection_key account_id g -> f = g.
Proof.
  unfold selection_key. intros H.
  apply string_app_inj_l in H. apply string_app_inj_l in H. exact H.
Qed.

(** ** Dicts *)


(** ** [max(keys, key=int)] *)




(** ** The value resolver *)

Lemma resolve_field_split (sf : list string) (sp : gmap string Value)
  (aid : string) (dat : Value) (f category rest : string) :
  in_fields sf f = true -> has_dot category = false ->
  resolve_field sf sp aid dat f (category ++ "." ++ rest) =
  outcome_of (resolve_value sp aid f dat category rest).
Proof.
  intros Hin Hc. unfold resolve_field. rewrite Hin. simpl negb. cbv iota.
  rewrite (split1_at_dot category rest Hc).
  destruct (resolve_value sp aid f dat category rest); reflexivity.
Qed.




Example latest_year_2023_any_order :
  Forall (fun d => resolve_field ["AnnualRevenue"] ∅ "001" d "AnnualRevenue"
                     "financials.latest.turnover" = Resolved (VStr "2023"))
    [years_example "2021" "2023" "2022"; years_example "2021" "2022" "2023";
     years_example "2023" "2021" "2022"; years_example "2023" "2022" "2021";
     years_example "2022" "2021" "2023"; years_example "2022" "2023" "2021"].
Proof. repeat constructor. Qed.


(** ** The update payload *)

Lemma mapping_of_fresh (f : string) (mappings : list (string * string)) :
  ~ In f (map fst mappings) -> mapping_of f mappings = None.
Proof.
  induction mappings as [|[g p] r IH]; simpl; [reflexivity|].
  intros H. destruct (String.eqb_spec f g) as [->|Hne]; [tauto|].
  apply IH. tauto.
Qed.

Lemma mapping_of_In (f p : string) (mappings : list (string * string)) :
  List.NoDup (map fst mappings) -> In (f, p) mappings -> mapping_of f mappings = Some p.
Proof.
  induction mappings as [|[g q] r IH]; simpl; [tauto|].
  intros Hnd [E|Hin].
  - injection E as -> ->. rewrite String.eqb_refl. reflexivity.
  - apply NoDup_cons_iff in Hnd as [Hg Hnd].
    destruct (String.eqb_spec f g) as [->|Hne].
    + exfalso. apply Hg. change g with (fst (g, p)). apply in_map. exact Hin.
    + auto.
Qed.

Lemma build_update_lookup (sf : list string) (sp : gmap string Value)
  (aid : string) (dat : Value) (mappings : list (string * string)) :
  forall (acc : gmap string Value) (errs : list string) (f : string),
    List.NoDup (map fst mappings) ->
    fst (build_update sf sp aid dat mappings acc errs) !! f =
    payload_entry sf sp aid dat f (mapping_of f mappings) (acc !! f).
Proof.
  induction mappings as [|[g p] r IH]; intros acc errs f Hnd; [reflexivity|].
  apply NoDup_cons_iff in Hnd as [Hg Hnd]. simpl.
  destruct (String.eqb_spec f g) as [->|Hne].
  - unfold payload_entry at 1.
    destruct (resolve_field sf sp aid dat g p) as [|v|e];
      rewrite (IH _ _ g Hnd), (mapping_of_fresh g r Hg); simpl; try reflexivity.
    destruct (is_not_none v); [apply lookup_insert_eq|reflexivity].
  - destruct (resolve_field sf sp aid dat g p) as [|v|e];
      rewrite (IH _ _ f Hnd); try reflexivity.
    destruct (is_not_none v); [|reflexivity].
    rewrite lookup_insert_ne by congruence. reflexivity.
Qed.

Lemma build_update_errors (sf : list string) (sp : gmap string Value)
  (aid : string) (dat : Value) (mappings : list (string * string)) :
  forall (acc : gmap string Value) (errs : list string) (p : string),
    In p (snd (build_update sf sp aid dat mappings acc errs)) ->
    In p errs \/
    exists g e, In (g, p) mappings /\ resolve_field sf sp aid dat g p = Failed e.
Proof.
  induction mappings as [|[g q] r IH]; intros acc errs p; simpl; [tauto|].
  destruct (resolve_field sf sp aid dat g q) as [|v|e] eqn:E; intros H;
    apply IH in H; destruct H as [H|(g' & e' & Hin & Hf)]; eauto 6.
  apply in_app_or in H as [H|[<-|[]]]; eauto 6.
Qed.

Lemma resolve_unrecognised (sp : gmap string Value) (aid f : string)
  (dat : Value) (category field_path : string) :
  recognised category field_path = false ->
  resolve_value sp aid f dat category field_path = Ok VNone.
Proof.
  unfold recognised, resolve_value.
  destruct (String.eqb category "people").
  - destruct (String.eqb field_path "count"); [discriminate|].
    destruct (startswith "ceo." field_path); [discriminate|reflexivity].
  - destruct (String.eqb category "basic"); [discriminate|].
    destruct (String.eqb category "financials"), (startswith "latest." field_path);
      try discriminate;
      destruct (String.eqb category "offices"), (startswith "first." field_path);
      try discriminate;
      destruct (String.eqb category "eAddresses"); try discriminate; reflexivity.
Qed.

Lemma resolve_field_no_dot (sf : list string) (sp : gmap string Value)
  (aid : string) (dat : Value) (f path : string) :
  has_dot path = false -> resolve_field sf sp aid dat f path = Skipped.
Proof.
  intros H. unfold resolve_field. rewrite (split1_no_dot path H).
  destruct (negb (in_fields sf f)); reflexivity.
Qed.

(** C2.  A mapped, in-scope field is in the update payload exactly when its
    path resolved to a value other than [None].  A path with no dot, an
    unknown category or an unknown remainder leaves the field out and
    reports nothing; a resolved empty string is written. *)
Theorem payload_has_field_iff_value
  (sf : list string) (sp : gmap string Value) (aid : string) (dat : Value)
  (mappings : list (string * string)) (f path : string) :
  List.NoDup (map fst mappings) -> In (f, path) mappings -> in_fields sf f = true ->
  (forall v,
      fst (build_update sf sp aid dat mappings ∅ []) !! f = Some v <->
      resolve_field sf sp aid dat f path = Resolved v /\ v <> VNone)
  /\ (has_dot path = false ->
      fst (build_update sf sp aid dat mappings ∅ []) !! f = None /\
      ~ In path (snd (build_update sf sp aid dat mappings ∅ [])))
  /\ (forall category rest,
         path = (category ++ "." ++ rest)%string -> has_dot category = false ->
         recognised category rest = false ->
         resolve_field sf sp aid dat f path = Resolved VNone /\
         fst (build_update sf sp aid dat mappings ∅ []) !! f = None /\
         ~ In path (snd (build_update sf sp aid dat mappings ∅ [])))
  /\ (resolve_field sf sp aid dat f path = Resolved (VStr "") ->
      fst (build_update sf sp aid dat mappings ∅ []) !! f = Some (VStr "")).
Proof.
  intros Hnd Hin Hsf.
  pose proof (build_update_lookup sf sp aid dat mappings ∅ [] f Hnd) as L.
  rewrite (mapping_of_In f path mappings Hnd Hin), lookup_empty in L.
  unfold payload_entry in L.
  split; [|split; [|split]].
  - intros v. rewrite L.
    destruct (resolve_field sf sp aid dat f path) as [|w|e].
    + split; [discriminate|intros [? _]; discriminate].
    + destruct w; simpl; split;
        try discriminate; try (intros [E N]; injection E as <-; congruence);
        try (intros E; injection E as <-; split; [reflexivity|discriminate]);
        try (intros [E _]; congruence).
    + split; [discriminate|intros [? _]; discriminate].
  - intros Hd. split.
    + rewrite L, (resolve_field_no_dot sf sp aid dat f path Hd). reflexivity.
    + intros Hp. apply build_update_errors in Hp as [[]|(g & e & _ & Hf)].
      rewrite (resolve_field_no_dot sf sp aid dat g path Hd) in Hf. discriminate.
  - intros category rest -> Hc Hr.
    assert (E : forall g e,
               resolve_field sf sp aid dat g (category ++ "." ++ rest) <> Failed e).
    { intros g e. unfold resolve_field.
      rewrite (split1_at_dot category rest Hc), resolve_unrecognised by exact Hr.
      destruct (negb (in_fields sf g)); discriminate. }
    rewrite (resolve_field_split sf sp aid dat f category rest Hsf Hc) in *.
    rewrite resolve_unrecognised in * by exact Hr. simpl in *.
    repeat split; auto.
    intros Hp. apply build_update_errors in Hp as [[]|(g & e & _ & Hf)].
    exact (E g e Hf).
  - intros E. rewrite L, E. reflexivity.
Qed.

(** A blank telephone number from the provider is written; a path without a
    dot writes nothing. *)
Lemma payload_has_field_iff_value_witness :
  fst (build_update ["Phone"; "Name"] ∅ "001"
         (VDict [("success", VBool true);
                 ("basic", VDict [("phoneNumber", VStr "")])])
         [("Phone", "basic.phoneNumber"); ("Name", "name")] ∅ [])
    !! "Phone" = Some (VStr "")
  /\ fst (build_update ["Phone"; "Name"] ∅ "001"
         (VDict [("success", VBool true);
                 ("basic", VDict [("phoneNumber", VStr "")])])
         [("Phone", "basic.phoneNumber"); ("Name", "name")] ∅ [])
    !! "Name" = None.
Proof.
  assert (Hnd : List.NoDup (map fst [("Phone", "basic.phoneNumber"); ("Name", "name")])).
  { simpl. repeat constructor; simpl; intuition discriminate. }
  split.
  - apply (proj2 (proj2 (proj2
      (payload_has_field_iff_value ["Phone"; "Name"] ∅ "001" _ _
         "Phone" "basic.phoneNumber" Hnd (or_introl eq_refl) eq_refl)))).
    reflexivity.
  - apply (proj1 (proj2
      (payload_has_field_iff_value ["Phone"; "Name"] ∅ "001" _ _
         "Name" "name" Hnd (or_intror (or_introl eq_refl)) eq_refl))).
    reflexivity.
Defined.

(** C4.  [people.count] resolves to the length of the [people] list, and to
    0 when the list is absent; the number is written to the payload even
    when it is 0. *)
Theorem people_count_is_written
  (sf : list string) (sp : gmap string Value) (aid : string)
  (d : list (string * Value)) (mappings : list (string * string))
  (f : string) (l : list Value) :
  List.NoDup (map fst mappings) -> In (f, "people.count") mappings ->
  in_fields sf f = true ->
  dlookup "people" d = Some (VList l) \/ (dlookup "people" d = None /\ l = []) ->
  resolve_field sf sp aid (VDict d) f "people.count" =
    Resolved (VInt (Z.of_nat (List.length l)))
  /\ fst (build_update sf sp aid (VDict d) mappings ∅ []) !! f =
    Some (VInt (Z.of_nat (List.length l))).
Proof.
  intros Hnd Hin Hsf Hp.
  assert (E : resolve_field sf sp aid (VDict d) f "people.count" =
              Resolved (VInt (Z.of_nat (List.length l)))).
  { change "people.count" with ("people" ++ "." ++ "count")%string.
    rewrite (resolve_field_split sf sp aid (VDict d) f "people" "count" Hsf eq_refl).
    unfold resolve_value. simpl String.eqb. cbv iota.
    unfold py_get_default.
    destruct Hp as [-> | [-> ->]]; reflexivity. }
  split; [exact E|].
  rewrite (build_update_lookup sf sp aid (VDict d) mappings ∅ [] f Hnd).
  rewrite (mapping_of_In f _ mappings Hnd Hin). unfold payload_entry.
  rewrite E. reflexivity.
Qed.

Lemma people_count_is_written_witness :
  resolve_field ["NumberOfEmployees"] ∅ "001"
    (VDict [("success", VBool true); ("people", VList [])])
    "NumberOfEmployees" "people.count" = Resolved (VInt 0)
  /\ fst (build_update ["NumberOfEmployees"] ∅ "001"
           (VDict [("success", VBool true); ("people", VList [])])
           [("NumberOfEmployees", "people.count")] ∅ [])
      !! "NumberOfEmployees" = Some (VInt 0).
Proof.
  apply (people_count_is_written ["NumberOfEmployees"] ∅ "001"
           [("success", VBool true); ("people", VList [])]
           [("NumberOfEmployees", "people.count")] "NumberOfEmployees" []).
  - simpl. repeat constructor. simpl. tauto.
  - left. reflexivity.
  - reflexivity.
  - left. reflexivity.
Defined.

(** ** Person selections *)

Section Selector.

Variable selectbox : string -> list Value -> nat -> Value.

(** The selector changes nothing unless it returns [True], and then it
    stores exactly one selection, under its own key. *)
Lemma show_person_selector_cases (aid : string) (vat : Value) (f : string)
  (people : Value) (r : Run) :
  (fst (show_person_selector selectbox aid vat f people r) = r /\
   snd (show_person_selector selectbox aid vat f people r) <> Ok true)
  \/ (exists p,
        snd (show_person_selector selectbox aid vat f people r) = Ok true /\
        fst (show_person_selector selectbox aid vat f people r) =
        on_ss (with_selection (selection_key aid f) p) r).
Proof.
  unfold show_person_selector, mbind, lift, ret, get_ss, store_selection,
    modify, mbind.
  destruct (py_iter people) as [ps|e]; [|left; split; [reflexivity|discriminate]].
  destruct (full_names ps) as [ns|e]; [|left; split; [reflexivity|discriminate]].
  destruct (find_ceo ps) as [ceo|e]; [|left; split; [reflexivity|discriminate]].
  destruct (truthy ceo).
  { right. exists ceo. split; reflexivity. }
  destruct (truthy (match selected_people (ss r) !! selection_key aid f with
                    | Some p => p | None => VNone end)).
  - destruct (py_item _ "fullName") as [n|e];
      [|left; split; [reflexivity|discriminate]].
    simpl.
    destruct (truthy (selectbox _ ns _)); [|left; split; [reflexivity|discriminate]].
    destruct (find_named _ ps) as [p|e]; [|left; split; [reflexivity|discriminate]].
    right. exists p. split; reflexivity.
  - simpl.
    destruct (truthy (selectbox _ ns _)); [|left; split; [reflexivity|discriminate]].
    destruct (find_named _ ps) as [p|e]; [|left; split; [reflexivity|discriminate]].
    right. exists p. split; reflexivity.
Qed.

End Selector.

(** C3.  A path [people.ceo.<attr>] reads [<attr>] from the selection stored
    under the key of this record and this field, whatever the provider's
    document holds; without a stored selection it resolves to no value.  A
    selection stored for another field of the same record, by hand or by
    the selector, changes neither the stored selection nor the value. *)
Theorem ceo_reads_stored_selection
  (selectbox : string -> list Value -> nat -> Value)
  (sf : list string) (sp : gmap string Value) (aid f : string) (dat : Value)
  (attr : string) :
  in_fields sf f = true -> has_dot attr = false ->
  resolve_field sf sp aid dat f ("people.ceo." ++ attr) =
    match sp !! selection_key aid f with
    | Some p => if truthy p then outcome_of (py_get p attr) else Resolved VNone
    | None => Resolved VNone
    end
  /\ (forall dat',
        resolve_field sf sp aid dat' f ("people.ceo." ++ attr) =
        resolve_field sf sp aid dat f ("people.ceo." ++ attr))
  /\ (forall g p, g <> f ->
        <[selection_key aid g := p]> sp !! selection_key aid f =
          sp !! selection_key aid f /\
        resolve_field sf (<[selection_key aid g := p]> sp) aid dat f
          ("people.ceo." ++ attr) =
        resolve_field sf sp aid dat f ("people.ceo." ++ attr))
  /\ (forall g vat people r, g <> f ->
        selected_people
          (ss (fst (show_person_selector selectbox aid vat g people r)))
          !! selection_key aid f =
        selected_people (ss r) !! selection_key aid f).
Proof.
  intros Hsf Ha.
  assert (R : forall sp' dat',
             resolve_field sf sp' aid dat' f ("people.ceo." ++ attr) =
             match sp' !! selection_key aid f with
             | Some p => if truthy p then outcome_of (py_get p attr)
                         else Resolved VNone
             | None => Resolved VNone
             end).
  { intros sp' dat'.
    change ("people.ceo." ++ attr)%string
      with ("people" ++ "." ++ ("ceo." ++ attr))%string.
    rewrite (resolve_field_split sf sp' aid dat' f "people" _ Hsf eq_refl).
    unfold resolve_value. simpl String.eqb. cbv iota.
    rewrite startswith_app.
    change ("ceo." ++ attr)%string with ("ceo" ++ "." ++ attr)%string.
    rewrite (second_token_after "ceo" attr eq_refl Ha).
    destruct (sp' !! selection_key aid f) as [p|]; [|reflexivity].
    destruct (truthy p); reflexivity. }
  assert (K : forall g, g <> f -> selection_key aid g <> selection_key aid f).
  { intros g Hg E. apply Hg. exact (selection_key_inj aid g f E). }
  split; [apply R|]. split; [intros; rewrite !R; reflexivity|]. split.
  - intros g p Hg. rewrite !R, lookup_insert_ne by (apply K; exact Hg). auto.
  - intros g vat people r Hg.
    destruct (show_person_selector_cases selectbox aid vat g people r)
      as [[-> _]|(p & _ & ->)]; [reflexivity|].
    simpl. apply lookup_insert_ne. apply K. exact Hg.
Qed.

Lemma ceo_reads_stored_selection_witness :
  resolve_field ["Yhteyshenkilo__c"; "Title__c"]
    {[ "001_Yhteyshenkilo__c" := VDict [("fullName", VStr "Aino"); ("title", VStr "CFO")] ]}
    "001" (VDict [("people", VList [])]) "Yhteyshenkilo__c" "people.ceo.fullName"
  = Resolved (VStr "Aino")
  /\ resolve_field ["Yhteyshenkilo__c"; "Title__c"]
    {[ "001_Yhteyshenkilo__c" := VDict [("fullName", VStr "Aino"); ("title", VStr "CFO")] ]}
    "001" (VDict [("people", VList [])]) "Title__c" "people.ceo.title"
  = Resolved VNone.
Proof.
  split.
  - exact (proj1 (ceo_reads_stored_selection (fun _ _ _ => VNone)
             ["Yhteyshenkilo__c"; "Title__c"] _ "001" "Yhteyshenkilo__c" _
             "fullName" eq_refl eq_refl)).
  - exact (proj1 (ceo_reads_stored_selection (fun _ _ _ => VNone)
             ["Yhteyshenkilo__c"; "Title__c"] _ "001" "Title__c" _
             "title" eq_refl eq_refl)).
Defined.

(** ** Automatic detection of the managing director *)





(** ** The missing-data selector *)

Lemma missing_fields_filter (sf : list string) (d : list (string * Value)) :
  missing_fields sf (VDict d) = Ok (List.filter (is_missing d) sf).
Proof.
  induction sf as [|f r IH]; [reflexivity|].
  simpl. rewrite IH. simpl. unfold is_missing, field_value.
  destruct (truthy _); reflexivity.
Qed.

Lemma missing_rows_flat_map (sf : list string) (records : list Value) :
  Forall (fun a => has_id a = true) records ->
  missing_rows sf records = Ok (flat_map (row_of sf) records).
Proof.
  induction 1 as [|a r Ha _ IH]; [reflexivity|].
  destruct a as [| | | | | |d]; try discriminate.
  simpl in Ha. simpl missing_rows. unfold missing_row.
  rewrite missing_fields_filter, IH. simpl bind.
  unfold row_of at 2 3. unfold field_value. simpl flat_map.
  destruct (List.filter (is_missing d) sf) as [|m ms]; [reflexivity|].
  unfold py_item, py_get_default.
  destruct (dlookup "Id" d) as [id|]; [|discriminate].
  reflexivity.
Qed.

Lemma filter_nonempty_iff (d : list (string * Value)) (sf : list string) :
  List.filter (is_missing d) sf <> [] <->
  exists f, In f sf /\ is_missing d f = true.
Proof.
  split.
  - destruct (List.filter (is_missing d) sf) as [|f r] eqn:E; [congruence|].
    intros _. exists f. apply filter_In. rewrite E. left. reflexivity.
  - intros (f & Hin & Hm) E.
    assert (H : In f (List.filter (is_missing d) sf)) by (apply filter_In; auto).
    rewrite E in H. exact H.
Qed.

Lemma in_row_of (sf : list string) (a : Value) (row : MissingRow) :
  In row (row_of sf a) <->
  exists d, a = VDict d /\ (exists f, In f sf /\ is_missing d f = true) /\
    row = {| row_Id := field_value d "Id";
             row_Name := match dlookup "Name" d with
                         | Some v => v | None => VStr "" end;
             row_VatNumber__c := match dlookup "VatNumber__c" d with
                                 | Some v => v | None => VStr "" end;
             row_Missing_Fields := List.filter (is_missing d) sf |}.
Proof.
  split.
  - destruct a as [| | | | | |d]; simpl; try tauto.
    destruct (List.filter (is_missing d) sf) as [|m ms] eqn:E; simpl; [tauto|].
    intros [<-|[]]. exists d. split; [reflexivity|]. split; [|rewrite E; reflexivity].
    apply filter_nonempty_iff. rewrite E. discriminate.
  - intros (d & -> & Hex & ->). simpl.
    apply filter_nonempty_iff in Hex.
    destruct (List.filter (is_missing d) sf) as [|m ms]; [congruence|].
    left. reflexivity.
Qed.

Lemma flat_map_row_of_nil (records : list Value) :
  flat_map (row_of []) records = [].
Proof.
  induction records as [|a rs IH]; [reflexivity|].
  simpl. rewrite IH. destruct a; reflexivity.
Qed.

(** C6.  On the records of the query answer, the selector returns, in
    order, one row (Id, Name, VatNumber__c, missing field names) for each
    record with a field of interest whose value is absent or blank (falsy),
    and no row for the others; with no field of interest it returns the
    empty list. *)
Theorem selector_emits_records_with_missing_fields
  (sf : list string) (records : list Value) :
  Forall (fun a => has_id a = true) records ->
  exists rows,
    fetch_accounts_with_missing_data sf records = Ok rows /\
    rows = flat_map (row_of sf) records /\
    (forall row,
        In row rows <->
        exists d, In (VDict d) records /\
          (exists f, In f sf /\ is_missing d f = true) /\
          row = {| row_Id := field_value d "Id";
                   row_Name := match dlookup "Name" d with
                               | Some v => v | None => VStr "" end;
                   row_VatNumber__c := match dlookup "VatNumber__c" d with
                                       | Some v => v | None => VStr "" end;
                   row_Missing_Fields := List.filter (is_missing d) sf |}) /\
    (forall d, (forall f, In f sf -> is_missing d f = false) ->
               row_of sf (VDict d) = []) /\
    (sf = [] -> rows = []).
Proof.
  intros Hid. exists (flat_map (row_of sf) records).
  split; [|split; [reflexivity|split; [|split]]].
  - unfold fetch_accounts_with_missing_data. destruct sf as [|f r].
    + rewrite flat_map_row_of_nil. reflexivity.
    + apply missing_rows_flat_map. exact Hid.
  - intros row. rewrite in_flat_map. split.
    + intros (a & Ha & Hr). apply in_row_of in Hr as (d & -> & Hex & ->).
      exists d. auto.
    + intros (d & Hd & Hex & ->). exists (VDict d). split; [exact Hd|].
      apply in_row_of. exists d. auto.
  - intros d Hall. simpl.
    destruct (List.filter (is_missing d) sf) as [|m ms] eqn:E; [reflexivity|].
    assert (Hm : In m (List.filter (is_missing d) sf)) by (rewrite E; left; reflexivity).
    apply filter_In in Hm as [Hin Hm]. rewrite (Hall m Hin) in Hm. discriminate.
  - intros ->. apply flat_map_row_of_nil.
Qed.

Lemma selector_emits_records_with_missing_fields_witness :
  exists rows,
    fetch_accounts_with_missing_data ["Name"; "Phone"] [record_R; record_full]
      = Ok rows /\
    rows = [{| row_Id := VStr "001"; row_Name := VStr "R";
               row_VatNumber__c := VStr "FI123";
               row_Missing_Fields := ["Phone"] |}].
Proof.
  destruct (selector_emits_records_with_missing_fields ["Name"; "Phone"]
              [record_R; record_full]) as (rows & E & Hrows & _).
  - repeat constructor.
  - exists rows. split; [exact E|]. rewrite Hrows. reflexivity.
Defined.

(** C10.  A field of interest whose value is falsy, be it absent, [None],
    0, the empty string or [False], is listed as missing, and its record is
    returned. *)
Theorem falsy_value_counts_as_missing
  (sf : list string) (records : list Value) (d : list (string * Value))
  (f : string) :
  Forall (fun a => has_id a = true) records ->
  In (VDict d) records -> In f sf ->
  truthy (field_value d f) = false ->
  (truthy (VInt 0) = false /\ truthy (VStr "") = false /\
   truthy (VBool false) = false /\ truthy VNone = false /\
   truthy (VFloat 0) = false) /\
  exists rows row,
    fetch_accounts_with_missing_data sf records = Ok rows /\
    In row rows /\ row_Id row = field_value d "Id" /\
    In f (row_Missing_Fields row).
Proof.
  intros Hid Hd Hf Hfalsy. split; [repeat split; reflexivity|].
  assert (Hm : is_missing d f = true) by (unfold is_missing; rewrite Hfalsy; reflexivity).
  exists (flat_map (row_of sf) records).
  eexists. split; [|split; [|split]].
  - unfold fetch_accounts_with_missing_data. destruct sf as [|g r]; [destruct Hf|].
    apply missing_rows_flat_map. exact Hid.
  - apply in_flat_map. exists (VDict d). split; [exact Hd|].
    apply in_row_of. exists d. split; [reflexivity|]. split; [eauto|reflexivity].
  - reflexivity.
  - simpl. apply filter_In. auto.
Qed.

Lemma falsy_value_counts_as_missing_witness :
  exists rows row,
    fetch_accounts_with_missing_data ["Name"; "NumberOfEmployees"] [record_zero]
      = Ok rows /\
    In row rows /\ row_Id row = VStr "003" /\
    In "NumberOfEmployees" (row_Missing_Fields row).
Proof.
  refine (proj2 (falsy_value_counts_as_missing ["Name"; "NumberOfEmployees"]
                   [record_zero]
                   [("Id", VStr "003"); ("Name", VStr "T");
                    ("NumberOfEmployees", VInt 0); ("VatNumber__c", VStr "FI789")]
                   "NumberOfEmployees" _ _ _ _)).
  - repeat constructor.
  - left. reflexivity.
  - right. left. reflexivity.
  - reflexivity.
Defined.

(** ** The session *)

Lemma grows_refl (s : Session) : grows s s.
Proof. constructor; auto. Qed.

Lemma grows_trans (s1 s2 s3 : Session) : grows s1 s2 -> grows s2 s3 -> grows s1 s3.
Proof.
  intros [a1 a2 a3 a4 a5 a6 a7 a8] [b1 b2 b3 b4 b5 b6 b7 b8].
  constructor; try congruence; auto.
  intros k Hk. rewrite b7; [auto|]. rewrite a7; auto.
Qed.

Lemma extends_refl (r : Run) : extends r r.
Proof. split; [apply grows_refl|split; reflexivity]. Qed.

Lemma extends_trans (r1 r2 r3 : Run) : extends r1 r2 -> extends r2 r3 -> extends r1 r3.
Proof.
  intros (g1 & c1 & e1) (g2 & c2 & e2).
  split; [exact (grows_trans _ _ _ g1 g2)|split; congruence].
Qed.

Lemma extends_on_ss (f : Session -> Session) (r : Run) :
  grows (ss r) (f (ss r)) -> extends r (on_ss f r).
Proof. intros H. split; [exact H|split; reflexivity]. Qed.

Lemma grows_with_selection (key : string) (p : Value) (s : Session) :
  grows s (with_selection key p s).
Proof.
  constructor; simpl; auto.
  intros k Hk. destruct (decide (key = k)) as [->|Hne].
  - rewrite lookup_insert_eq. eauto.
  - rewrite lookup_insert_ne by exact Hne. exact Hk.
Qed.

Lemma grows_cache_insert (aid : string) (c : CacheEntry) (s : Session) :
  person_selection_state s !! aid = None ->
  grows s (set_person_selection_state (fun m => <[aid := c]> m) s).
Proof.
  intros Hnone. constructor; simpl; auto.
  intros k Hk. apply lookup_insert_ne. intros ->. rewrite Hnone in Hk.
  destruct Hk; discriminate.
Qed.

Lemma extending_ret {A} (a : A) : extending (ret a).
Proof. intros r. apply extends_refl. Qed.

Lemma extending_lift {A} (m : exn A) : extending (lift m).
Proof. intros r. apply extends_refl. Qed.

Lemma extending_get_ss : extending get_ss.
Proof. intros r. apply extends_refl. Qed.

Lemma extending_mbind {A B} (m : M A) (k : A -> M B) :
  extending m -> (forall a, extending (k a)) -> extending (mbind m k).
Proof.
  intros Hm Hk r. unfold mbind. specialize (Hm r).
  destruct (m r) as [r1 [a|e]]; simpl in *; [|exact Hm].
  exact (extends_trans _ _ _ Hm (Hk a r1)).
Qed.

Lemma extending_result {A} (m : M A) (r r' : Run) (x : exn A) :
  extending m -> m r = (r', x) -> extends r r'.
Proof. intros Hm E. specialize (Hm r). rewrite E in Hm. exact Hm. Qed.

(** Reading a successful bind backwards. *)
Lemma mbind_ok {A B} (m : M A) (k : A -> M B) (r r' : Run) (b : B) :
  mbind m k r = (r', Ok b) ->
  exists r1 a, m r = (r1, Ok a) /\ k a r1 = (r', Ok b).
Proof.
  unfold mbind. destruct (m r) as [r1 [a|e]]; [eauto|discriminate].
Qed.

Section Frames.

Variable Account_get : string -> exn Value.
Variable fetch_profinder_data : Value -> Value.
Variable Account_update : string -> gmap string Value -> bool.
Variable selectbox : string -> list Value -> nat -> Value.

Lemma extending_show_person_selector (aid : string) (vat : Value) (f : string)
  (people : Value) :
  extending (show_person_selector selectbox aid vat f people).
Proof.
  intros r.
  destruct (show_person_selector_cases selectbox aid vat f people r)
    as [[-> _]|(p & _ & ->)]; [apply extends_refl|].
  apply extends_on_ss, grows_with_selection.
Qed.

Lemma extending_selector_loop (aid : string) (vat people : Value)
  (mappings : list (string * string)) :
  forall a, extending (selector_loop selectbox aid vat people mappings a).
Proof.
  induction mappings as [|[f path] rest IH]; intros a; [apply extending_ret|].
  cbn [selector_loop]. apply extending_mbind; [apply extending_get_ss|]. intros s.
  destruct (in_fields (selected_fields s) f); [|apply IH].
  destruct (split1 path) as [|c [|fp [|? ?]]]; try apply IH.
  destruct (String.eqb c "people" && startswith "ceo." fp); [|apply IH].
  apply extending_mbind; [apply extending_show_person_selector|].
  intros b. apply IH.
Qed.

Lemma extending_fetch_account (aid : string) (a : FirstPass) :
  extending (fetch_account Account_get fetch_profinder_data selectbox aid a).
Proof.
  unfold fetch_account.
  apply extending_mbind; [apply extending_lift|]. intros account.
  apply extending_mbind; [apply extending_lift|]. intros vat.
  destruct (negb (truthy vat)).
  { apply extending_mbind; [apply extending_lift|]. intros; apply extending_ret. }
  intros r. unfold mbind at 1. unfold get_ss at 1. cbv iota beta.
  destruct (person_selection_state (ss r) !! aid) as [c|] eqn:Ec.
  - revert r Ec.
    assert (G : extending (mbind (ret true) (fun cached : bool =>
      if cached then mbind get_ss (fun s' =>
        match person_selection_state s' !! aid with
        | Some entry => selector_loop selectbox aid vat (people_data entry)
                          (field_mappings s') a
        | None => lift (Raise KeyError)
        end)
      else mbind (lift (py_item account "Name"))
             (fun name => ret (add_log (FetchFailed name) a))))).
    { apply extending_mbind; [apply extending_ret|]. intros [|].
      - apply extending_mbind; [apply extending_get_ss|]. intros s'.
        destruct (person_selection_state s' !! aid);
          [apply extending_selector_loop|apply extending_lift].
      - apply extending_mbind; [apply extending_lift|].
        intros; apply extending_ret. }
    intros r _. apply G.
  - unfold mbind, lift, ret, get_ss, modify.
    destruct (negb (truthy (fetch_profinder_data vat))).
    + destruct (py_item account "Name"); apply extends_refl.
    + destruct (py_get (fetch_profinder_data vat) "success") as [sv|e];
        [|apply extends_refl].
      destruct (truthy sv).
      * destruct (py_get_default _ "people" _) as [pv|e]; [|apply extends_refl].
        destruct (py_item account "Name") as [nm|e]; [|apply extends_refl].
        simpl. rewrite lookup_insert_eq.
        eapply extends_trans;
          [|apply (extending_selector_loop aid vat pv (field_mappings (ss r)) a)].
        apply (extends_on_ss (set_person_selection_state _)).
        apply grows_cache_insert. exact Ec.
      * destruct (py_item account "Name"); apply extends_refl.
Qed.

Lemma extending_fetch_loop (accounts : list string) :
  forall a,
    extending (fetch_loop Account_get fetch_profinder_data selectbox accounts a).
Proof.
  induction accounts as [|aid rest IH]; intros a; [apply extending_ret|].
  cbn [fetch_loop]. apply extending_mbind; [apply extending_fetch_account|]. exact IH.
Qed.

End Frames.

(** ** The first pass and the Apply button *)

Section FirstPassProperties.

Variable Account_get : string -> exn Value.
Variable fetch_profinder_data : Value -> Value.
Variable Account_update : string -> gmap string Value -> bool.
Variable selectbox : string -> list Value -> nat -> Value.

Lemma selector_loop_step (aid : string) (vat people : Value) (f path : string)
  (rest : list (string * string)) (a : FirstPass) (r : Run) :
  selector_loop selectbox aid vat people ((f, path) :: rest) a r =
  if needs_ceo (selected_fields (ss r)) (f, path) then
    mbind (show_person_selector selectbox aid vat f people)
      (fun made =>
         selector_loop selectbox aid vat people rest
           {| logs := logs a; person_selection_needed := true;
              all_selections_complete := all_selections_complete a && made |}) r
  else selector_loop selectbox aid vat people rest a r.
Proof.
  cbn [selector_loop]. unfold mbind at 1, get_ss at 1. cbv iota beta.
  unfold needs_ceo. cbn [fst snd].
  destruct (in_fields (selected_fields (ss r)) f); [|reflexivity].
  cbn [andb].
  destruct (split1 path) as [|c [|fp [|? ?]]]; try reflexivity.
  destruct (String.eqb c "people" && startswith "ceo." fp); reflexivity.
Qed.

Lemma selector_loop_post (aid : string) (vat people : Value)
  (mappings : list (string * string)) :
  forall a r r' a',
    selector_loop selectbox aid vat people mappings a r = (r', Ok a') ->
    logs a' = logs a /\
    (person_selection_needed a = true -> person_selection_needed a' = true) /\
    (all_selections_complete a' = true -> all_selections_complete a = true) /\
    (forall f path, In (f, path) mappings ->
       needs_ceo (selected_fields (ss r)) (f, path) = true ->
       person_selection_needed a' = true /\
       (all_selections_complete a' = true ->
        is_Some (selected_people (ss r') !! selection_key aid f))) /\
    (person_selection_needed a' = true ->
       person_selection_needed a = true \/
       exists f path, In (f, path) mappings /\
                      needs_ceo (selected_fields (ss r)) (f, path) = true) /\
    (flag_ok a r -> flag_ok a' r').
Proof.
  induction mappings as [|[f path] rest IH]; intros a r r' a' H.
  - injection H as <- <-.
    refine (conj eq_refl (conj (fun h => h) (conj (fun h => h)
             (conj _ (conj (fun h => or_introl h) (fun h => h)))))).
    intros g q [].
  - rewrite selector_loop_step in H.
    destruct (needs_ceo (selected_fields (ss r)) (f, path)) eqn:En.
    + apply mbind_ok in H as (r1 & made & Hs & Hl).
      pose proof (extending_result _ _ _ _
        (extending_show_person_selector selectbox aid vat f people) Hs) as X.
      pose proof (extending_result _ _ _ _
        (extending_selector_loop selectbox aid vat people rest _) Hl) as X2.
      assert (Hsf : selected_fields (ss r1) = selected_fields (ss r))
        by (apply X).
      destruct (IH _ _ _ _ Hl) as (L & N & C & K & Nd & F). simpl in *.
      assert (Hmade : all_selections_complete a' = true ->
                      all_selections_complete a = true /\ made = true).
      { intros Hc. apply C in Hc. apply andb_true_iff in Hc. exact Hc. }
      assert (Hstored : made = true ->
                show_apply_button (ss r1) = true /\
                is_Some (selected_people (ss r1) !! selection_key aid f)).
      { intros ->.
        destruct (show_person_selector_cases selectbox aid vat f people r)
          as [[_ Hno]|(p & _ & Hst)]; [rewrite Hs in Hno; simpl in Hno; congruence|].
        rewrite Hs in Hst. simpl in Hst. rewrite Hst. simpl.
        rewrite lookup_insert_eq. eauto. }
      refine (conj L (conj (fun _ => N eq_refl) (conj _ (conj _ (conj _ _))))).
      * intros Hc. exact (proj1 (Hmade Hc)).
      * intros g q [E|Hin] Hq; (split; [exact (N eq_refl)|]); intros Hc.
        -- injection E as <- <-. apply Hmade in Hc as [_ Hm].
           apply (grows_people _ _ (proj1 X2)). apply Hstored. exact Hm.
        -- rewrite <- Hsf in Hq. exact (proj2 (K _ _ Hin Hq) Hc).
      * intros _. right. exists f, path. split; [left; reflexivity|exact En].
      * intros Fa. apply F. intros _ Hc. apply andb_true_iff in Hc as [_ Hm].
        apply Hstored. exact Hm.
    + destruct (IH _ _ _ _ H) as (L & N & C & K & Nd & F).
      refine (conj L (conj N (conj C (conj _ (conj _ F))))).
      * intros g q [E|Hin] Hq; [injection E as <- <-; congruence|].
        exact (K _ _ Hin Hq).
      * intros Hn. destruct (Nd Hn) as [?|(g & q & Hin & Hq)]; [auto|].
        right. exists g, q. split; [right; exact Hin|exact Hq].
Qed.

(** The selectors leave the fetch cache alone. *)
Lemma selector_loop_cache (aid : string) (vat people : Value)
  (mappings : list (string * string)) :
  forall a r,
    person_selection_state
      (ss (fst (selector_loop selectbox aid vat people mappings a r))) =
    person_selection_state (ss r).
Proof.
  induction mappings as [|[f path] rest IH]; intros a r; [reflexivity|].
  rewrite selector_loop_step.
  destruct (needs_ceo (selected_fields (ss r)) (f, path)); [|apply IH].
  unfold mbind.
  destruct (show_person_selector_cases selectbox aid vat f people r)
    as [[E _]|(p & _ & E)];
    destruct (show_person_selector selectbox aid vat f people r) as [r1 [made|e]];
    simpl in E; subst r1; try reflexivity; rewrite IH; reflexivity.
Qed.

Lemma lift_ok {A} (m : exn A) (r r' : Run) (a : A) :
  lift m r = (r', Ok a) -> r' = r /\ m = Ok a.
Proof. unfold lift. intros E. injection E as <- ->. auto. Qed.

Lemma fetch_account_post (aid0 : string) (a : FirstPass) (r r' : Run)
  (a' : FirstPass) :
  fetch_account Account_get fetch_profinder_data selectbox aid0 a r = (r', Ok a') ->
  (person_selection_needed a = true -> person_selection_needed a' = true) /\
  (all_selections_complete a' = true -> all_selections_complete a = true) /\
  (vat_ok Account_get aid0 -> is_Some (person_selection_state (ss r') !! aid0) ->
   forall f, required (ss r) f ->
     person_selection_needed a' = true /\
     (all_selections_complete a' = true ->
      is_Some (selected_people (ss r') !! selection_key aid0 f))) /\
  (forall aid, aid <> aid0 ->
     person_selection_state (ss r') !! aid = person_selection_state (ss r) !! aid) /\
  (person_selection_needed a' = true ->
     person_selection_needed a = true \/ exists f, required (ss r) f) /\
  (flag_ok a r -> flag_ok a' r').
Proof.
  intros H. unfold fetch_account in H.
  apply mbind_ok in H as (r0 & account & EA & H).
  apply lift_ok in EA as [-> EA].
  apply mbind_ok in H as (r0 & vat & EV & H).
  apply lift_ok in EV as [-> EV].
  destruct (truthy vat) eqn:Tv; cbn [negb] in H.
  2:{ apply mbind_ok in H as (r0 & name & EN & H).
      apply lift_ok in EN as [-> EN]. injection H as <- <-.
      refine (conj (fun h => h) (conj (fun h => h) (conj _
               (conj (fun _ _ => eq_refl) (conj (fun h => or_introl h) (fun h => h)))))).
      intros (acc & v & E1 & E2 & E3). rewrite EA in E1. injection E1 as <-.
      rewrite EV in E2. injection E2 as <-. congruence. }
  apply mbind_ok in H as (r0 & s & ES & H). injection ES as <- <-.
  apply mbind_ok in H as (r1 & cached & EC & H).
  assert (Hsel : forall people,
    is_Some (person_selection_state (ss r1) !! aid0) ->
    (forall aid, aid <> aid0 ->
       person_selection_state (ss r1) !! aid = person_selection_state (ss r) !! aid) ->
    extends r r1 -> show_apply_button (ss r1) = show_apply_button (ss r) ->
    selector_loop selectbox aid0 vat people (field_mappings (ss r1)) a r1 = (r', Ok a') ->
    (person_selection_needed a = true -> person_selection_needed a' = true) /\
    (all_selections_complete a' = true -> all_selections_complete a = true) /\
    (vat_ok Account_get aid0 -> is_Some (person_selection_state (ss r') !! aid0) ->
     forall f, required (ss r) f ->
       person_selection_needed a' = true /\
       (all_selections_complete a' = true ->
        is_Some (selected_people (ss r') !! selection_key aid0 f))) /\
    (forall aid, aid <> aid0 ->
       person_selection_state (ss r') !! aid = person_selection_state (ss r) !! aid) /\
    (person_selection_needed a' = true ->
       person_selection_needed a = true \/ exists f, required (ss r) f) /\
    (flag_ok a r -> flag_ok a' r')).
  { intros people _ Hc X Hb Hl.
    destruct (selector_loop_post aid0 vat people _ _ _ _ _ Hl)
      as (L & N & C & K & Nd & F).
    pose proof (selector_loop_cache aid0 vat people (field_mappings (ss r1)) a r1) as Hk.
    rewrite Hl in Hk. simpl in Hk.
    assert (Hfm : field_mappings (ss r1) = field_mappings (ss r)) by apply X.
    assert (Hsf : selected_fields (ss r1) = selected_fields (ss r)) by apply X.
    refine (conj N (conj C (conj _ (conj _ (conj _ _))))).
    - intros _ _ f (path & Hin & Hq). apply (K f path).
      + rewrite Hfm. exact Hin.
      + rewrite Hsf. exact Hq.
    - intros aid Hne. rewrite Hk. apply Hc. exact Hne.
    - intros Hn. destruct (Nd Hn) as [?|(f & path & Hin & Hq)]; [auto|].
      right. exists f, path. rewrite <- Hfm, <- Hsf. auto.
    - intros Fa. apply F. intros h1 h2. rewrite Hb. exact (Fa h1 h2). }
  destruct (person_selection_state (ss r) !! aid0) as [c|] eqn:Ec.
  - injection EC as <- <-.
    apply mbind_ok in H as (r0 & s' & ES & H). injection ES as <- <-.
    rewrite Ec in H.
    apply (Hsel (people_data c)); auto using extends_refl; rewrite Ec; eauto.
  - apply mbind_ok in EC as (r2 & usable & EU & EC).
    assert (r2 = r) as ->.
    { destruct (negb (truthy (fetch_profinder_data vat))).
      - injection EU as <- _. reflexivity.
      - apply mbind_ok in EU as (r3 & sv & E1 & E2).
        apply lift_ok in E1 as [-> _]. injection E2 as <- _. reflexivity. }
    destruct usable.
    + apply mbind_ok in EC as (r2 & people & E1 & EC).
      apply lift_ok in E1 as [-> E1].
      apply mbind_ok in EC as (r2 & name & E2 & EC).
      apply lift_ok in E2 as [-> E2].
      apply mbind_ok in EC as (r2 & u & E3 & EC).
      injection E3 as <- _. injection EC as <- <-.
      apply mbind_ok in H as (r0 & s' & ES & H). injection ES as <- <-.
      cbn [on_ss ss set_person_selection_state person_selection_state] in H.
      rewrite lookup_insert_eq in H.
      apply (Hsel people); auto.
      * cbn. rewrite lookup_insert_eq. eauto.
      * intros aid Hne. cbn. apply lookup_insert_ne. congruence.
      * apply (extends_on_ss (set_person_selection_state _)).
        apply grows_cache_insert. exact Ec.
    + injection EC as <- <-.
      apply mbind_ok in H as (r0 & name & EN & H).
      apply lift_ok in EN as [-> EN]. injection H as <- <-.
      refine (conj (fun h => h) (conj (fun h => h) (conj _
               (conj (fun _ _ => eq_refl) (conj (fun h => or_introl h) (fun h => h)))))).
      intros _ Hs. rewrite Ec in Hs. destruct Hs; discriminate.
Qed.

Lemma required_extends (r r' : Run) (f : string) :
  extends r r' -> required (ss r) f <-> required (ss r') f.
Proof.
  intros [G _]. unfold required.
  rewrite (grows_mappings _ _ G), (grows_fields _ _ G). reflexivity.
Qed.

Lemma fetch_loop_post (accounts : list string) :
  forall a r r' a',
    fetch_loop Account_get fetch_profinder_data selectbox accounts a r = (r', Ok a') ->
    (person_selection_needed a = true -> person_selection_needed a' = true) /\
    (all_selections_complete a' = true -> all_selections_complete a = true) /\
    (forall aid, vat_ok Account_get aid -> is_Some (person_selection_state (ss r') !! aid) ->
       In aid accounts \/ person_selection_state (ss r) !! aid = None ->
       forall f, required (ss r) f ->
         person_selection_needed a' = true /\
         (all_selections_complete a' = true ->
          is_Some (selected_people (ss r') !! selection_key aid f))) /\
    (forall aid, ~ In aid accounts ->
       person_selection_state (ss r') !! aid = person_selection_state (ss r) !! aid) /\
    (person_selection_needed a' = true ->
       person_selection_needed a = true \/ exists f, required (ss r) f) /\
    (flag_ok a r -> flag_ok a' r').
Proof.
  induction accounts as [|aid0 rest IH]; intros a r r' a' H.
  - injection H as <- <-.
    refine (conj (fun h => h) (conj (fun h => h) (conj _
             (conj (fun _ _ => eq_refl) (conj (fun h => or_introl h) (fun h => h)))))).
    intros aid _ Hs [[]|Hn]. rewrite Hn in Hs. destruct Hs; discriminate.
  - cbn [fetch_loop] in H. apply mbind_ok in H as (r1 & a1 & H1 & H2).
    destruct (fetch_account_post aid0 a r r1 a1 H1) as (N1 & C1 & K1 & U1 & D1 & F1).
    destruct (IH a1 r1 r' a' H2) as (N2 & C2 & K2 & U2 & D2 & F2).
    pose proof (extending_result _ _ _ _
      (extending_fetch_account Account_get fetch_profinder_data selectbox aid0 a) H1) as X1.
    pose proof (extending_result _ _ _ _
      (extending_fetch_loop Account_get fetch_profinder_data selectbox rest a1) H2) as X2.
    refine (conj (fun h => N2 (N1 h)) (conj (fun h => C1 (C2 h)) (conj _
             (conj _ (conj _ (fun h => F2 (F1 h))))))).
    + intros aid Hv Hs Hor f Hf.
      assert (Hf1 : required (ss r1) f) by (apply (required_extends r r1 f X1); exact Hf).
      destruct (person_selection_state (ss r1) !! aid) as [c|] eqn:E1.
      * destruct (String.eqb_spec aid aid0) as [->|Hne].
        -- assert (Hs1 : is_Some (person_selection_state (ss r1) !! aid0))
             by (rewrite E1; eauto).
           destruct (K1 Hv Hs1 f Hf) as [Hn Hk].
           split; [exact (N2 Hn)|].
           intros Hc. apply (grows_people _ _ (proj1 X2)). apply Hk, C2, Hc.
        -- apply (K2 aid Hv Hs); [|exact Hf1].
           destruct Hor as [[E|Hin]|Hn]; [congruence|left; exact Hin|].
           rewrite (U1 aid Hne), Hn in E1. discriminate.
      * apply (K2 aid Hv Hs); [right; exact E1|exact Hf1].
    + intros aid Hn. rewrite U2 by (intros Hin; apply Hn; right; exact Hin).
      apply U1. intros ->. apply Hn. left. reflexivity.
    + intros Hn. destruct (D2 Hn) as [Hn1|(f & Hf)].
      * exact (D1 Hn1).
      * right. exists f. apply (required_extends r r1 f X1). exact Hf.
Qed.

End FirstPassProperties.

(** ** The orchestrator *)

Section Orchestrator.

Variable Account_get : string -> exn Value.
Variable fetch_profinder_data : Value -> Value.
Variable Account_update : string -> gmap string Value -> bool.
Variable selectbox : string -> list Value -> nat -> Value.

Abbreviation enrich_data' :=
  (enrich_data Account_get fetch_profinder_data Account_update selectbox).
Abbreviation enrichment_section' :=
  (enrichment_section Account_get fetch_profinder_data Account_update selectbox).
Abbreviation fetch_loop' := (fetch_loop Account_get fetch_profinder_data selectbox).
Abbreviation apply_loop' := (apply_loop Account_get Account_update).

Lemma enrich_data_unfold (apply_clicked : bool) (ids : list string) (r : Run) :
  enrich_data' apply_clicked ids r =
  let r0 := on_ss (start_session ids) r in
  match fetch_loop' (selected_accounts (ss r0)) first_pass_init r0 with
  | (r3, Ok a) =>
      let offered := apply_offered a (show_apply_button (ss r3)) in
      if offered && apply_clicked then
        match apply_loop' (selected_accounts (ss r3)) (logs a) r3 with
        | (r4, Ok lg) =>
            (on_ss reset_after_update r4,
             Ok {| enrich_logs := lg; first_pass := a; button_offered := offered;
                   perform_update := true |})
        | (r4, Raise e) => (r4, Raise e)
        end
      else (r3, Ok {| enrich_logs := logs a; first_pass := a;
                      button_offered := offered; perform_update := false |})
  | (r3, Raise e) => (r3, Raise e)
  end.
Proof.
  destruct r as [[sf fm sp sab es ps sa ip] cu rep].
  unfold enrich_data, start_session, first_pass_init, mbind, get_ss, modify, ret,
    on_ss.
  destruct es as [[|]|]; cbn -[fetch_loop apply_loop apply_offered].
  all: match goal with
       | |- context [fetch_loop ?g ?p ?s ?l ?a ?x] =>
           destruct (fetch_loop g p s l a x) as [r3 [a3|e3]]
       end; try reflexivity.
  all: destruct (apply_offered a3 (show_apply_button (ss r3)) && apply_clicked);
    try reflexivity.
  all: match goal with
       | |- context [apply_loop ?g ?u ?l ?a ?x] =>
           destruct (apply_loop g u l a x) as [r4 [l4|e4]]
       end; reflexivity.
Qed.

(** C7.  In a run of [enrich_data] that renders the page, the Apply button
    is offered only if every record of the session that is processed (the
    CRM returns it with a VAT number and its provider document is cached)
    has a stored person selection for each in-scope field mapped to
    [people.ceo.*]; it is offered exactly when no selector was needed or
    every selector completed, in particular when no field asks for a
    selection; pressing the button does not change whether it is offered. *)
Theorem apply_offered_only_after_selections
  (ids : list string) (r r' : Run) (e : Enriched) :
  enrich_data' false ids r = (r', Ok e) ->
  (button_offered e = true ->
   forall aid f,
     In aid (selected_accounts (ss r')) -> vat_ok Account_get aid ->
     is_Some (person_selection_state (ss r') !! aid) ->
     required (ss r') f ->
     is_Some (selected_people (ss r') !! selection_key aid f))
  /\ (button_offered e = true <->
      person_selection_needed (first_pass e) = false \/
      all_selections_complete (first_pass e) = true)
  /\ ((forall f, ~ required (ss r') f) -> button_offered e = true)
  /\ (forall r2 e2,
        enrich_data' true ids r = (r2, Ok e2) ->
        button_offered e2 = button_offered e).
Proof.
  intros H. pose proof (enrich_data_unfold true ids r) as HT.
  rewrite enrich_data_unfold in H. cbv zeta in H, HT.
  destruct (fetch_loop' _ first_pass_init (on_ss (start_session ids) r))
    as [r3 [a|er]] eqn:EF; [|discriminate].
  rewrite andb_false_r in H. injection H as <- <-. cbn [button_offered first_pass].
  destruct (fetch_loop_post Account_get fetch_profinder_data selectbox _ _ _ _ _ EF)
    as (N & C & K & U & D & F).
  pose proof (extending_result _ _ _ _
    (extending_fetch_loop Account_get fetch_profinder_data selectbox _ _) EF) as X.
  assert (Fl : flag_ok a r3) by (apply F; intros Hn; discriminate).
  assert (Hoff : apply_offered a (show_apply_button (ss r3)) = true <->
                 person_selection_needed a = false \/
                 all_selections_complete a = true).
  { unfold apply_offered. unfold flag_ok in Fl.
    destruct (person_selection_needed a), (all_selections_complete a); simpl;
      try rewrite (Fl eq_refl eq_refl); simpl; intuition congruence. }
  split; [|split; [exact Hoff|split]].
  - intros Ho aid f Hin Hv Hs Hf.
    rewrite (grows_accounts _ _ (proj1 X)) in Hin.
    apply (required_extends _ _ f X) in Hf.
    destruct (K aid Hv Hs (or_introl Hin) f Hf) as [Hn Hk].
    apply Hk. apply Hoff in Ho as [Ho|Ho]; congruence.
  - intros Hnone. apply Hoff.
    destruct (person_selection_needed a) eqn:En; [|left; reflexivity].
    destruct (D eq_refl) as [Hd|(f & Hf)]; [discriminate|].
    exfalso. apply (Hnone f). apply (required_extends _ _ f X). exact Hf.
  - intros r2 e2 H2. rewrite HT in H2.
    destruct (apply_offered a (show_apply_button (ss r3))) eqn:Eo; cbn [andb] in H2.
    + destruct (apply_loop' _ _ r3) as [r4 [lg|er]]; [|discriminate].
      injection H2 as _ <-. reflexivity.
    + injection H2 as _ <-. reflexivity.
Qed.

(** The apply pass writes to the CRM and reports, and leaves the session
    as it is. *)
Lemma apply_account_ss (aid : string) (lg : list LogEntry) (r : Run) :
  ss (fst (apply_account Account_get Account_update aid lg r)) = ss r.
Proof.
  unfold apply_account, mbind, lift, get_ss, ret, st_errors, crm_update.
  destruct (Account_get aid) as [account|e]; [|reflexivity].
  destruct (person_selection_state (ss r) !! aid) as [entry|]; [|reflexivity].
  destruct (build_update _ _ _ _ _ _ _) as [update_data errors].
  destruct (negb (Nat.eqb (size update_data) 0));
    destruct (py_item account "Name"); reflexivity.
Qed.

Lemma apply_loop_ss (accounts : list string) :
  forall lg r, ss (fst (apply_loop' accounts lg r)) = ss r.
Proof.
  induction accounts as [|aid rest IH]; intros lg r; [reflexivity|].
  cbn [apply_loop]. unfold mbind.
  pose proof (apply_account_ss aid lg r) as E.
  destruct (apply_account Account_get Account_update aid lg r) as [r1 [lg1|e]];
    simpl in E; [|exact E].
  rewrite IH. exact E.
Qed.

Lemma reset_after_update_cleared (s : Session) :
  session_cleared (reset_after_update s) /\
  enrichment_started (reset_after_update s) = Some false /\
  enrichment_in_progress (reset_after_update s) = enrichment_in_progress s.
Proof. repeat split. Qed.

(** C8.  When the apply pass has gone through the records, whatever the
    CRM answered to the updates, the cache, the selections, the record list
    and the button flag are cleared; [enrichment_in_progress] stays set, so
    the page is not idle: the next run enters [enrich_data] again, over no
    record, and renders the Apply button. *)
Theorem apply_pass_clears_session_but_stays_in_progress
  (checked : list string) (r r' : Run) (e : Enriched) :
  enrichment_section' ClickApply checked r = (r', Ok (Some e)) ->
  perform_update e = true ->
  session_cleared (ss r') /\
  enrichment_started (ss r') = Some false /\
  enrichment_in_progress (ss r') = Some true /\
  ~ idle (ss r') /\
  exists r'',
    enrichment_section' NoClick checked r' =
    (r'', Ok (Some {| enrich_logs := []; first_pass := first_pass_init;
                      button_offered := true; perform_update := false |})).
Proof.
  intros H Hp.
  assert (Hc : checked <> []).
  { intros ->. destruct r as [[sf fm sp sab es ps sa [ip|]] cu rep];
      cbv in H; discriminate. }
  assert (Hip : enrichment_in_progress (ss r) = Some true).
  { destruct checked as [|c cs]; [congruence|].
    destruct r as [[sf fm sp sab es ps sa [[|]|]] cu rep];
      [reflexivity|cbv in H; discriminate|cbv in H; discriminate]. }
  assert (He : enrich_data' true (selected_accounts (ss r)) r = (r', Ok e)).
  { destruct checked as [|c cs]; [congruence|].
    destruct r as [[sf fm sp sab es ps sa ip] cu rep]. simpl in Hip. subst ip.
    unfold enrichment_section, mbind, get_ss, ret in H.
    cbn -[enrich_data] in H. cbn [ss selected_accounts].
    destruct (enrich_data' true sa _) as [r1 [e1|er]]; [|discriminate].
    injection H as <- <-. reflexivity. }
  rewrite enrich_data_unfold in He. cbv zeta in He.
  destruct (fetch_loop' _ first_pass_init _) as [r3 [a|er]] eqn:EF; [|discriminate].
  pose proof (extending_result _ _ _ _
    (extending_fetch_loop Account_get fetch_profinder_data selectbox _ _) EF) as X.
  destruct (apply_offered a (show_apply_button (ss r3)) && true) eqn:Eo.
  2:{ injection He as _ <-. discriminate. }
  pose proof (apply_loop_ss (selected_accounts (ss r3)) (logs a) r3) as Es.
  destruct (apply_loop' _ _ r3) as [r4 [lg|er]]; [|discriminate].
  injection He as <- _. simpl in Es.
  assert (Hip' : enrichment_in_progress (ss r4) = Some true).
  { rewrite Es, (grows_in_progress _ _ (proj1 X)).
    destruct r as [[sf fm sp sab [[|]|] ps sa ip] cu rep]; exact Hip. }
  destruct (reset_after_update_cleared (ss r4)) as (Hcl & Hst & Hin).
  cbn [on_ss ss].
  split; [exact Hcl|]. split; [exact Hst|]. split; [congruence|].
  split; [unfold idle, in_progress; rewrite Hin, Hip'; discriminate|].
  destruct checked as [|c cs]; [congruence|].
  destruct r4 as [[sf fm sp sab es ps sa ip] cu rep]. simpl in Hip'. subst ip.
  eexists. reflexivity.
Qed.

(** C9.  Pressing Back while enrichment is in progress ends the run before
    [enrich_data] is entered: the cache and the selections are dropped, the
    page is idle, nothing is written to the CRM and the run returns no log;
    the next run does not enter [enrich_data] either. *)
Theorem cancel_discards_session_without_writing
  (checked : list string) (r : Run) :
  checked <> [] -> in_progress (ss r) = true ->
  enrichment_section' ClickBack checked r = (on_ss cancel r, Raise RerunException)
  /\ idle (cancel (ss r))
  /\ person_selection_state (cancel (ss r)) = ∅
  /\ selected_people (cancel (ss r)) = ∅
  /\ show_apply_button (cancel (ss r)) = false
  /\ crm_updates (on_ss cancel r) = crm_updates r
  /\ enrichment_section' NoClick checked (on_ss cancel r) = (on_ss cancel r, Ok None).
Proof.
  intros Hc Hip. destruct checked as [|c cs]; [congruence|].
  destruct r as [[sf fm sp sab es ps sa [[|]|]] cu rep]; try discriminate.
  repeat split.
Qed.

End Orchestrator.

(** ** A session, run on a small world *)

Lemma first_run_example_result :
  first_run_example = (fst first_run_example, Ok offered_example).
Proof. vm_compute. reflexivity. Qed.

Lemma apply_offered_only_after_selections_witness :
  button_offered offered_example = true /\
  is_Some (selected_people (ss (fst first_run_example))
             !! selection_key "001" "Yhteyshenkilo__c").
Proof.
  split; [reflexivity|].
  refine (proj1 (apply_offered_only_after_selections crm_example provider_example
                   crm_rejects no_operator ["001"] session_example
                   (fst first_run_example) offered_example _)
            eq_refl "001" "Yhteyshenkilo__c" _ _ _ _).
  - vm_compute. reflexivity.
  - vm_compute. left. reflexivity.
  - eexists. eexists. split; [reflexivity|]. split; reflexivity.
  - vm_compute. eexists. reflexivity.
  - exists "people.ceo.fullName". split; [vm_compute; right; left; reflexivity|].
    vm_compute. reflexivity.
Defined.

Example apply_run_example_update :
  crm_updates (fst apply_run_example) =
  [("001", {[ "Phone" := VStr "+358401234567";
              "Yhteyshenkilo__c" := VStr "Mika Laine" ]})].
Proof. vm_compute. reflexivity. Qed.

Lemma apply_pass_clears_session_but_stays_in_progress_witness :
  session_cleared (ss (fst apply_run_example)) /\
  enrichment_started (ss (fst apply_run_example)) = Some false /\
  enrichment_in_progress (ss (fst apply_run_example)) = Some true /\
  ~ idle (ss (fst apply_run_example)) /\
  exists r'',
    enrichment_section crm_example provider_example crm_rejects no_operator
      NoClick ["001"] (fst apply_run_example) =
    (r'', Ok (Some {| enrich_logs := []; first_pass := first_pass_init;
                      button_offered := true; perform_update := false |})).
Proof.
  refine (apply_pass_clears_session_but_stays_in_progress crm_example
            provider_example crm_rejects no_operator ["001"]
            (fst first_run_example) (fst apply_run_example) applied_example _ _).
  - vm_compute. reflexivity.
  - reflexivity.
Defined.

Lemma cancel_discards_session_without_writing_witness :
  enrichment_section crm_example provider_example crm_rejects no_operator
    ClickBack ["001"] (fst first_run_example) =
    (on_ss cancel (fst first_run_example), Raise RerunException)
  /\ idle (cancel (ss (fst first_run_example)))
  /\ person_selection_state (cancel (ss (fst first_run_example))) = ∅
  /\ selected_people (cancel (ss (fst first_run_example))) = ∅
  /\ show_apply_button (cancel (ss (fst first_run_example))) = false
  /\ crm_updates (on_ss cancel (fst first_run_example)) =
     crm_updates (fst first_run_example)
  /\ enrichment_section crm_example provider_example crm_rejects no_operator
       NoClick ["001"] (on_ss cancel (fst first_run_example)) =
     (on_ss cancel (fst first_run_example), Ok None).
Proof.
  apply (cancel_discards_session_without_writing crm_example provider_example
           crm_rejects no_operator ["001"] (fst first_run_example)).
  - discriminate.
  - vm_compute. reflexivity.
Defined.

(** * Further properties of the resolver *)

Lemma split1_has_dot (path : string) :
  has_dot path = true ->
  exists a b, split1 path = [a; b] /\ path = (a ++ "." ++ b)%string /\
              has_dot a = false.
Proof.
  induction path as [|c r IH]; simpl; [discriminate|].
  destruct (Ascii.eqb_spec c ".") as [->|Hne]; simpl.
  - intros _. exists "", r. auto.
  - intros H. destruct (IH H) as (a & b & E & -> & Ha).
    exists (String c a), b. rewrite E. simpl.
    destruct (Ascii.eqb_spec c "."); [congruence|]. auto.
Qed.

(** X5.  The loop passes over a mapping without looking anything up exactly
    when the field is out of scope or the path has no dot. *)
Theorem field_skipped_iff_out_of_scope_or_no_dot
  (sf : list string) (sp : gmap string Value) (aid : string) (dat : Value)
  (f path : string) :
  resolve_field sf sp aid dat f path = Skipped <->
  in_fields sf f = false \/ has_dot path = false.
Proof.
  unfold resolve_field. destruct (in_fields sf f); simpl.
  - destruct (has_dot path) eqn:Hd.
    + destruct (split1_has_dot path Hd) as (a & b & -> & _ & _).
      destruct (resolve_value sp aid f dat a b);
        split; [discriminate|intros [?|?]; discriminate
               |discriminate|intros [?|?]; discriminate].
    + rewrite (split1_no_dot path Hd). tauto.
  - tauto.
Qed.

(** X1.  [basic.<rest>] looks the whole remainder up in the [basic] map,
    dots included: a missing key or a missing [basic] gives no value, a
    [basic] that is not a map makes the lookup raise. *)
Theorem basic_reads_whole_remainder
  (sf : list string) (sp : gmap string Value) (aid f : string)
  (d : list (string * Value)) (rest : string) :
  in_fields sf f = true ->
  (forall b, dlookup "basic" d = Some (VDict b) ->
     resolve_field sf sp aid (VDict d) f ("basic." ++ rest) =
     Resolved (field_value b rest))
  /\ (dlookup "basic" d = None ->
      resolve_field sf sp aid (VDict d) f ("basic." ++ rest) = Resolved VNone)
  /\ (forall v, dlookup "basic" d = Some v -> (forall b, v <> VDict b) ->
      resolve_field sf sp aid (VDict d) f ("basic." ++ rest) =
      Failed AttributeError).
Proof.
  intros Hsf.
  change ("basic." ++ rest)%string with ("basic" ++ "." ++ rest)%string.
  rewrite (resolve_field_split sf sp aid (VDict d) f "basic" rest Hsf eq_refl).
  unfold resolve_value. simpl String.eqb. cbv iota.
  unfold py_get_default.
  split; [|split].
  - intros b ->. reflexivity.
  - intros ->. reflexivity.
  - intros v -> Hv. destruct v; try reflexivity. exfalso. exact (Hv d0 eq_refl).
Qed.

Lemma basic_reads_whole_remainder_witness :
  resolve_field ["Website"] ∅ "001"
    (VDict [("success", VBool true); ("basic", VDict [("www", VStr "r.fi")])])
    "Website" "basic.www" = Resolved (VStr "r.fi")
  /\ resolve_field ["Website"] ∅ "001"
    (VDict [("success", VBool true); ("basic", VNone)])
    "Website" "basic.www" = Failed AttributeError.
Proof.
  split.
  - exact (proj1 (basic_reads_whole_remainder ["Website"] ∅ "001" "Website"
                    [("success", VBool true); ("basic", VDict [("www", VStr "r.fi")])]
                    "www" eq_refl) _ eq_refl).
  - refine (proj2 (proj2 (basic_reads_whole_remainder ["Website"] ∅ "001" "Website"
                    [("success", VBool true); ("basic", VNone)]
                    "www" eq_refl)) VNone eq_refl _).
    discriminate.
Defined.

(** X2.  [offices.first.<attr>] and [eAddresses.first.<attr>] read the
    attribute on the first element of the list; an absent or empty list
    gives no value. *)
Theorem first_element_is_read
  (sf : list string) (sp : gmap string Value) (aid f : string)
  (d : list (string * Value)) (category attr : string) :
  in_fields sf f = true -> has_dot attr = false ->
  category = "offices" \/ category = "eAddresses" ->
  (forall o os, dlookup category d = Some (VList (o :: os)) ->
     resolve_field sf sp aid (VDict d) f (category ++ ".first." ++ attr) =
     outcome_of (py_get o attr))
  /\ (dlookup category d = None \/ dlookup category d = Some (VList []) ->
      resolve_field sf sp aid (VDict d) f (category ++ ".first." ++ attr) =
      Resolved VNone).
Proof.
  intros Hsf Ha Hc.
  assert (Hd : has_dot category = false) by (destruct Hc as [-> | ->]; reflexivity).
  change (category ++ ".first." ++ attr)%string
    with (category ++ "." ++ ("first." ++ attr))%string.
  rewrite (resolve_field_split sf sp aid (VDict d) f category _ Hsf Hd).
  assert (Ht : second_token ("first." ++ attr) = Ok attr)
    by exact (second_token_after "first" attr eq_refl Ha).
  unfold resolve_value.
  destruct Hc as [-> | ->]; simpl String.eqb; cbv iota;
    rewrite startswith_app; simpl andb; cbv iota;
    unfold py_get, py_get_default; (split;
    [intros o os ->; cbn [truthy py_len bind];
     change (0 <? Z.of_nat (List.length (o :: os)))%Z with true; cbv iota;
     fold (py_get_default o) in *; rewrite Ht; reflexivity
    |intros [-> | ->]; reflexivity]).
Qed.

Lemma first_element_is_read_witness :
  resolve_field ["City__c"] ∅ "001"
    (VDict [("offices", VList [VDict [("city", VStr "Oulu")];
                               VDict [("city", VStr "Espoo")]])])
    "City__c" "offices.first.city" = Resolved (VStr "Oulu").
Proof.
  exact (proj1 (first_element_is_read ["City__c"] ∅ "001" "City__c"
                  [("offices", VList [VDict [("city", VStr "Oulu")];
                                      VDict [("city", VStr "Espoo")]])]
                  "offices" "city" eq_refl eq_refl (or_introl eq_refl))
           _ _ eq_refl).
Defined.

(** X3.  Outside [people.ceo.*] the resolver looks at the provider's
    document only: the stored selections, the record and the destination
    field do not matter. *)
Theorem resolver_ignores_selections_outside_ceo
  (sp sp' : gmap string Value) (aid aid' f f' : string) (dat : Value)
  (category field_path : string) :
  String.eqb category "people" && startswith "ceo." field_path = false ->
  resolve_value sp aid f dat category field_path =
  resolve_value sp' aid' f' dat category field_path.
Proof.
  unfold resolve_value. intros H.
  destruct (String.eqb category "people"); [|reflexivity].
  cbn [andb] in H. rewrite H.
  destruct (String.eqb field_path "count"); reflexivity.
Qed.

Lemma resolver_ignores_selections_outside_ceo_witness :
  resolve_value {[ "001_Phone" := VDict [("phoneNumber", VStr "1")] ]} "001" "Phone"
    (VDict [("basic", VDict [("phoneNumber", VStr "2")])]) "basic" "phoneNumber" =
  resolve_value ∅ "002" "Fax"
    (VDict [("basic", VDict [("phoneNumber", VStr "2")])]) "basic" "phoneNumber".
Proof.
  exact (resolver_ignores_selections_outside_ceo _ ∅ "001" "002" "Phone" "Fax"
           _ "basic" "phoneNumber" eq_refl).
Defined.

Lemma resolve_field_resolved_in_scope (sf : list string) (sp : gmap string Value)
  (aid : string) (dat : Value) (f path : string) (v : Value) :
  resolve_field sf sp aid dat f path = Resolved v -> in_fields sf f = true.
Proof.
  unfold resolve_field. destruct (in_fields sf f); [reflexivity|discriminate].
Qed.

Lemma build_update_origin (sf : list string) (sp : gmap string Value)
  (aid : string) (dat : Value) (mappings : list (string * string)) :
  forall (acc : gmap string Value) (errs : list string) (f : string) (v : Value),
    fst (build_update sf sp aid dat mappings acc errs) !! f = Some v ->
    acc !! f = Some v \/
    (in_fields sf f = true /\ v <> VNone /\
     exists path, In (f, path) mappings /\
                  resolve_field sf sp aid dat f path = Resolved v).
Proof.
  induction mappings as [|[g p] r IH]; intros acc errs f v H; [left; exact H|].
  simpl in H.
  destruct (resolve_field sf sp aid dat g p) as [|w|e] eqn:E;
    apply IH in H; destruct H as [H|(H1 & H2 & q & Hin & Hq)];
    try (left; exact H);
    try (right; split; [exact H1|split; [exact H2|]];
         exists q; split; [right; exact Hin|exact Hq]).
  destruct (is_not_none w) eqn:Ew; [|left; exact H].
  destruct (decide (g = f)) as [->|Hne].
  - rewrite lookup_insert_eq in H. injection H as ->. right.
    split; [exact (resolve_field_resolved_in_scope _ _ _ _ _ _ _ E)|].
    split; [intros ->; discriminate|].
    exists p. split; [left; reflexivity|exact E].
  - rewrite lookup_insert_ne in H by exact Hne. left. exact H.
Qed.

(** X4.  Every entry of an update payload belongs to a field that is both
    in scope and mapped, and holds the value its path resolved to, which is
    never [None]. *)
Theorem payload_holds_only_resolved_in_scope_fields
  (sf : list string) (sp : gmap string Value) (aid : string) (dat : Value)
  (mappings : list (string * string)) (f : string) (v : Value) :
  fst (build_update sf sp aid dat mappings ∅ []) !! f = Some v ->
  in_fields sf f = true /\ v <> VNone /\
  exists path, In (f, path) mappings /\
               resolve_field sf sp aid dat f path = Resolved v.
Proof.
  intros H. apply build_update_origin in H as [H|H]; [|exact H].
  rewrite lookup_empty in H. discriminate.
Qed.

Lemma payload_holds_only_resolved_in_scope_fields_witness :
  in_fields ["Phone"] "Phone" = true /\ VStr "+358401234567" <> VNone /\
  exists path,
    In ("Phone", path) [("Name", "basic.name"); ("Phone", "basic.phoneNumber")] /\
    resolve_field ["Phone"] ∅ "001"
      (VDict [("basic", VDict [("name", VStr "R");
                               ("phoneNumber", VStr "+358401234567")])])
      "Phone" path = Resolved (VStr "+358401234567").
Proof.
  apply (payload_holds_only_resolved_in_scope_fields ["Phone"] ∅ "001"
           (VDict [("basic", VDict [("name", VStr "R");
                                    ("phoneNumber", VStr "+358401234567")])])
           [("Name", "basic.name"); ("Phone", "basic.phoneNumber")]).
  vm_compute. reflexivity.
Defined.






Lemma split_dot_at_dot (p s : string) :
  has_dot p = false -> split_dot (p ++ "." ++ s) = p :: split_dot s.
Proof.
  induction p as [|a p IH]; simpl; [reflexivity|].
  destruct (Ascii.eqb a "."); simpl; [discriminate|].
  intros H. rewrite (IH H). reflexivity.
Qed.

Lemma second_token_ignores_rest (p x more : string) :
  has_dot p = false -> has_dot x = false ->
  second_token (p ++ "." ++ x ++ "." ++ more) = Ok x.
Proof.
  intros Hp Hx. unfold second_token.
  rewrite (split_dot_at_dot p _ Hp), (split_dot_at_dot x more Hx). reflexivity.
Qed.

Lemma resolve_value_same_tests (sp : gmap string Value) (aid f : string)
  (dat : Value) (category fp fp' : string) :
  String.eqb category "basic" = false ->
  String.eqb fp "count" = String.eqb fp' "count" ->
  startswith "ceo." fp = startswith "ceo." fp' ->
  startswith "latest." fp = startswith "latest." fp' ->
  startswith "first." fp = startswith "first." fp' ->
  second_token fp = second_token fp' ->
  resolve_value sp aid f dat category fp = resolve_value sp aid f dat category fp'.
Proof.
  intros Hb H1 H2 H3 H4 H5. unfold resolve_value.
  rewrite Hb, H1, H2, H3, H4, H5. reflexivity.
Qed.

(** X7.  Below [people.ceo.], [financials.latest.], [offices.first.] and
    [eAddresses.first.] only the token up to the next dot names the
    attribute: whatever follows a further dot is ignored. *)
Theorem attribute_is_token_before_next_dot
  (sf : list string) (sp : gmap string Value) (aid f : string) (dat : Value)
  (prefix attr more : string) :
  has_dot attr = false ->
  In prefix ["people.ceo"; "financials.latest"; "offices.first"; "eAddresses.first"] ->
  resolve_field sf sp aid dat f (prefix ++ "." ++ attr ++ "." ++ more) =
  resolve_field sf sp aid dat f (prefix ++ "." ++ attr).
Proof.
  intros Ha Hp. unfold resolve_field.
  destruct (negb (in_fields sf f)); [reflexivity|].
  assert (T : forall pre, has_dot pre = false ->
            second_token (pre ++ "." ++ attr ++ "." ++ more) =
            second_token (pre ++ "." ++ attr)).
  { intros pre Hpre. rewrite second_token_ignores_rest, second_token_after; auto. }
  simpl in Hp. destruct Hp as [<-|[<-|[<-|[<-|[]]]]].
  - change ("people.ceo" ++ "." ++ attr ++ "." ++ more)%string
      with ("people" ++ "." ++ ("ceo" ++ "." ++ attr ++ "." ++ more))%string.
    change ("people.ceo" ++ "." ++ attr)%string
      with ("people" ++ "." ++ ("ceo" ++ "." ++ attr))%string.
    rewrite !split1_at_dot by reflexivity.
    rewrite (resolve_value_same_tests sp aid f dat "people"
               ("ceo" ++ "." ++ attr ++ "." ++ more) ("ceo" ++ "." ++ attr));
      try reflexivity. apply T. reflexivity.
  - change ("financials.latest" ++ "." ++ attr ++ "." ++ more)%string
      with ("financials" ++ "." ++ ("latest" ++ "." ++ attr ++ "." ++ more))%string.
    change ("financials.latest" ++ "." ++ attr)%string
      with ("financials" ++ "." ++ ("latest" ++ "." ++ attr))%string.
    rewrite !split1_at_dot by reflexivity.
    rewrite (resolve_value_same_tests sp aid f dat "financials"
               ("latest" ++ "." ++ attr ++ "." ++ more) ("latest" ++ "." ++ attr));
      try reflexivity. apply T. reflexivity.
  - change ("offices.first" ++ "." ++ attr ++ "." ++ more)%string
      with ("offices" ++ "." ++ ("first" ++ "." ++ attr ++ "." ++ more))%string.
    change ("offices.first" ++ "." ++ attr)%string
      with ("offices" ++ "." ++ ("first" ++ "." ++ attr))%string.
    rewrite !split1_at_dot by reflexivity.
    rewrite (resolve_value_same_tests sp aid f dat "offices"
               ("first" ++ "." ++ attr ++ "." ++ more) ("first" ++ "." ++ attr));
      try reflexivity. apply T. reflexivity.
  - change ("eAddresses.first" ++ "." ++ attr ++ "." ++ more)%string
      with ("eAddresses" ++ "." ++ ("first" ++ "." ++ attr ++ "." ++ more))%string.
    change ("eAddresses.first" ++ "." ++ attr)%string
      with ("eAddresses" ++ "." ++ ("first" ++ "." ++ attr))%string.
    rewrite !split1_at_dot by reflexivity.
    rewrite (resolve_value_same_tests sp aid f dat "eAddresses"
               ("first" ++ "." ++ attr ++ "." ++ more) ("first" ++ "." ++ attr));
      try reflexivity. apply T. reflexivity.
Qed.

Lemma attribute_is_token_before_next_dot_witness :
  resolve_field ["AnnualRevenue"] ∅ "001"
    (VDict [("financials", VDict fin_example)])
    "AnnualRevenue" "financials.latest.turnover.change" =
  resolve_field ["AnnualRevenue"] ∅ "001"
    (VDict [("financials", VDict fin_example)])
    "AnnualRevenue" "financials.latest.turnover".
Proof.
  exact (attribute_is_token_before_next_dot ["AnnualRevenue"] ∅ "001"
           "AnnualRevenue" (VDict [("financials", VDict fin_example)])
           "financials.latest" "turnover" "change" eq_refl
           (or_intror (or_introl eq_refl))).
Defined.

(** * Further properties of the session *)

Lemma start_session_frame (ids : list string) (s : Session) :
  selected_fields (start_session ids s) = selected_fields s /\
  field_mappings (start_session ids s) = field_mappings s /\
  selected_people (start_session ids s) = selected_people s /\
  show_apply_button (start_session ids s) = show_apply_button s /\
  enrichment_in_progress (start_session ids s) = enrichment_in_progress s.
Proof.
  unfold start_session.
  destruct (enrichment_started s) as [[|]|] eqn:E; cbn; rewrite ?E; cbn;
    repeat split.
Qed.

Lemma start_session_same_list (s : Session) :
  selected_accounts (start_session (selected_accounts s) s) = selected_accounts s.
Proof.
  unfold start_session.
  destruct (enrichment_started s) as [[|]|] eqn:E; cbn; rewrite ?E; reflexivity.
Qed.

Section SessionExtras.

Variable Account_get : string -> exn Value.
Variable fetch_profinder_data : Value -> Value.
Variable Account_update : string -> gmap string Value -> bool.
Variable selectbox : string -> list Value -> nat -> Value.

Abbreviation enrich_data' :=
  (enrich_data Account_get fetch_profinder_data Account_update selectbox).
Abbreviation enrichment_section' :=
  (enrichment_section Account_get fetch_profinder_data Account_update selectbox).
Abbreviation fetch_account' :=
  (fetch_account Account_get fetch_profinder_data selectbox).

(** X8.  A run of [enrich_data] in which Apply is not pressed, however it
    ends, attempts no CRM update and reports no path; it leaves the field
    mappings, the fields of interest and the progress flag as they were,
    and keeps every stored selection. *)
Theorem run_without_apply_writes_nothing (ids : list string) (r : Run) :
  crm_updates (fst (enrich_data' false ids r)) = crm_updates r /\
  reported (fst (enrich_data' false ids r)) = reported r /\
  field_mappings (ss (fst (enrich_data' false ids r))) = field_mappings (ss r) /\
  selected_fields (ss (fst (enrich_data' false ids r))) = selected_fields (ss r) /\
  enrichment_in_progress (ss (fst (enrich_data' false ids r))) =
    enrichment_in_progress (ss r) /\
  (forall k, is_Some (selected_people (ss r) !! k) ->
             is_Some (selected_people (ss (fst (enrich_data' false ids r))) !! k)).
Proof.
  rewrite enrich_data_unfold. cbv zeta.
  pose proof (extending_fetch_loop Account_get fetch_profinder_data selectbox
                (selected_accounts (ss (on_ss (start_session ids) r)))
                first_pass_init (on_ss (start_session ids) r)) as X.
  destruct (fetch_loop _ _ _ _ _ (on_ss (start_session ids) r)) as [r3 [a|e]];
    [rewrite andb_false_r|]; cbn [fst] in *;
    destruct X as (G & Hc & Hr);
    destruct (start_session_frame ids (ss r)) as (F1 & F2 & F3 & F4 & F5);
    cbn [on_ss ss crm_updates reported] in *;
    (split; [exact Hc|]); (split; [exact Hr|]);
    (split; [rewrite (grows_mappings _ _ G); exact F2|]);
    (split; [rewrite (grows_fields _ _ G); exact F1|]);
    (split; [rewrite (grows_in_progress _ _ G); exact F5|]);
    intros k Hk; apply (grows_people _ _ G); rewrite F3; exact Hk.
Qed.

(** X9.  A record whose provider document is already cached is not
    fetched again: the first pass over it does not depend on the provider,
    and its cache entry stays as it is. *)
Theorem cached_record_is_not_refetched
  (provider' : Value -> Value) (aid : string) (a : FirstPass) (r : Run) :
  is_Some (person_selection_state (ss r) !! aid) ->
  fetch_account Account_get provider' selectbox aid a r = fetch_account' aid a r
  /\ person_selection_state (ss (fst (fetch_account' aid a r))) !! aid =
     person_selection_state (ss r) !! aid.
Proof.
  intros Hs. split.
  - unfold fetch_account, mbind, lift, get_ss.
    destruct (Account_get aid) as [account|e]; [|reflexivity].
    destruct (py_get account "VatNumber__c") as [vat|e]; [|reflexivity].
    destruct (negb (truthy vat)); [reflexivity|].
    destruct (person_selection_state (ss r) !! aid) as [c|]; [reflexivity|].
    destruct Hs; discriminate.
  - pose proof (extending_fetch_account Account_get fetch_profinder_data
                  selectbox aid a r) as (G & _).
    exact (grows_cache _ _ G aid Hs).
Qed.

(** X10.  A record without a VAT number, or one the provider has no usable
    document for (a falsy answer, or [success] falsy), is logged and
    skipped: the session is left exactly as it was. *)
Theorem unusable_record_is_logged_and_skipped
  (aid : string) (d : list (string * Value)) (name : Value)
  (a : FirstPass) (r : Run) :
  Account_get aid = Ok (VDict d) -> dlookup "Name" d = Some name ->
  (truthy (field_value d "VatNumber__c") = false ->
   fetch_account' aid a r = (r, Ok (add_log (NoVat name) a)))
  /\ (truthy (field_value d "VatNumber__c") = true ->
      person_selection_state (ss r) !! aid = None ->
      truthy (fetch_profinder_data (field_value d "VatNumber__c")) = false \/
      (exists pd, fetch_profinder_data (field_value d "VatNumber__c") = VDict pd /\
                  truthy (field_value pd "success") = false) ->
      fetch_account' aid a r = (r, Ok (add_log (FetchFailed name) a))).
Proof.
  intros HA HN. unfold fetch_account, mbind, lift, get_ss, ret.
  rewrite HA. unfold py_get, py_get_default, py_item, field_value in *.
  rewrite HN. split.
  - intros ->. reflexivity.
  - intros Hv Hc Hor. rewrite Hv. cbn [negb]. cbv beta. rewrite Hc.
    destruct Hor as [Hf|(pd & Hpd & Hs)].
    + rewrite Hf. reflexivity.
    + rewrite Hpd in *. destruct (truthy (VDict pd)); [|reflexivity].
      cbn [negb]. rewrite Hs. reflexivity.
Qed.

(** X22.  While enrichment is in progress, a run in which neither Back nor
    Apply is pressed keeps the session's record list, whatever is ticked
    and however the run ends. *)
Theorem session_record_list_is_fixed
  (click : Click) (checked : list string) (r : Run) :
  in_progress (ss r) = true -> click = NoClick \/ click = ClickEnrich ->
  selected_accounts (ss (fst (enrichment_section' click checked r))) =
  selected_accounts (ss r).
Proof.
  intros Hip Hc.
  assert (E : enrichment_section' click checked r =
              match checked with
              | [] => (r, Ok None)
              | _ :: _ =>
                  match enrich_data' false (selected_accounts (ss r)) r with
                  | (r1, Ok e) => (r1, Ok (Some e))
                  | (r1, Raise x) => (r1, Raise x)
                  end
              end).
  { destruct r as [[sf fm sp sab es ps sa [[|]|]] cu rep]; try discriminate.
    unfold enrichment_section, mbind, get_ss, ret.
    destruct checked as [|c cs]; [reflexivity|].
    destruct Hc as [-> | ->]; cbn -[enrich_data];
      destruct (enrich_data' false sa _) as [r1 [e1|x]]; reflexivity. }
  rewrite E. destruct checked as [|c cs]; [reflexivity|].
  assert (F : selected_accounts
                (ss (fst (enrich_data' false (selected_accounts (ss r)) r))) =
              selected_accounts (ss r)).
  { rewrite enrich_data_unfold. cbv zeta.
    pose proof (extending_fetch_loop Account_get fetch_profinder_data selectbox
                  (selected_accounts
                     (ss (on_ss (start_session (selected_accounts (ss r))) r)))
                  first_pass_init
                  (on_ss (start_session (selected_accounts (ss r))) r)) as (G & _).
    destruct (fetch_loop _ _ _ _ _ _) as [r3 [a|e]];
      [rewrite andb_false_r|]; cbn [fst] in *;
      rewrite (grows_accounts _ _ G); apply start_session_same_list. }
  destruct (enrich_data' false (selected_accounts (ss r)) r) as [r1 [e1|x]];
    exact F.
Qed.

End SessionExtras.

(** * The apply pass *)

Section ApplyPass.

Variable Account_get : string -> exn Value.

Lemma apply_account_run (aid : string) (r : Run) :
  (exists d n, Account_get aid = Ok (VDict d) /\ dlookup "Name" d = Some n) ->
  exists r1 n,
    (forall Account_update lg,
        exists l, apply_account Account_get Account_update aid lg r =
                    (r1, Ok (lg ++ l)) /\ List.length l = n) /\
    ss r1 = ss r /\
    n = List.length (cached_accounts (ss r) [aid]).
Proof.
  intros (d & nm & HA & HN).
  unfold apply_account, mbind, lift, get_ss, ret, st_errors, crm_update,
    cached_accounts.
  rewrite HA. cbn [List.filter]. unfold py_item. rewrite HN.
  destruct (person_selection_state (ss r) !! aid) as [entry|].
  - destruct (build_update _ _ _ _ _ _ _) as [update_data errors].
    destruct (negb (Nat.eqb (size update_data) 0)).
    + eexists. exists 1%nat.
      split; [intros U lg; eexists; split; reflexivity|split; reflexivity].
    + eexists. exists 1%nat.
      split; [intros U lg; eexists; split; reflexivity|split; reflexivity].
  - exists r, 0%nat. split; [|split; reflexivity].
    intros U lg. exists []. rewrite app_nil_r. split; reflexivity.
Qed.

Lemma cached_accounts_cons (s : Session) (aid : string) (rest : list string) :
  List.length (cached_accounts s (aid :: rest)) =
  (List.length (cached_accounts s [aid]) + List.length (cached_accounts s rest))%nat.
Proof.
  unfold cached_accounts. cbn [List.filter].
  destruct (person_selection_state s !! aid); reflexivity.
Qed.

(** X11.  When the CRM returns every record of the list with its name, the
    apply pass goes through the whole list and adds one log entry per
    cached record; the run it leaves behind is the same whatever the CRM
    answers to the updates, so a rejected update stops nothing. *)
Theorem apply_pass_survives_rejected_updates (accounts : list string) (r : Run) :
  (forall aid, In aid accounts ->
     exists d n, Account_get aid = Ok (VDict d) /\ dlookup "Name" d = Some n) ->
  exists r1,
    (forall Account_update lg,
        exists l, apply_loop Account_get Account_update accounts lg r =
                    (r1, Ok (lg ++ l)) /\
                  List.length l = List.length (cached_accounts (ss r) accounts)) /\
    ss r1 = ss r.
Proof.
  revert r. induction accounts as [|aid rest IH]; intros r Hall.
  - exists r. split; [|reflexivity]. intros U lg. exists [].
    rewrite app_nil_r. split; reflexivity.
  - destruct (apply_account_run aid r (Hall aid (or_introl eq_refl)))
      as (r1 & n & H1 & Hs1 & Hn).
    destruct (IH r1 (fun a Ha => Hall a (or_intror Ha))) as (r2 & H2 & Hs2).
    exists r2. split; [|congruence].
    intros U lg. destruct (H1 U lg) as (l1 & E1 & L1).
    destruct (H2 U (lg ++ l1)) as (l2 & E2 & L2).
    exists (l1 ++ l2). cbn [apply_loop]. unfold mbind. rewrite E1, E2.
    rewrite app_assoc. split; [reflexivity|].
    rewrite length_app, cached_accounts_cons, L1, L2, Hs1, Hn. reflexivity.
Qed.

Lemma apply_account_updates (Account_update : string -> gmap string Value -> bool)
  (aid : string) (lg : list LogEntry) (r : Run) :
  exists news,
    crm_updates (fst (apply_account Account_get Account_update aid lg r)) =
      crm_updates r ++ news /\
    forall a p, In (a, p) news ->
      a = aid /\
      exists entry, person_selection_state (ss r) !! aid = Some entry /\
                    p = fst (payload_for (ss r) aid entry) /\ p <> ∅.
Proof.
  unfold apply_account, mbind, lift, get_ss, ret, st_errors, crm_update, payload_for.
  destruct (Account_get aid) as [account|e];
    [|exists []; rewrite app_nil_r; split; [reflexivity|intros ? ? []]].
  destruct (person_selection_state (ss r) !! aid) as [entry|];
    [|exists []; rewrite app_nil_r; split; [reflexivity|intros ? ? []]].
  destruct (build_update _ _ _ _ _ _ _) as [update_data errors] eqn:EB.
  destruct (Nat.eqb (size update_data) 0) eqn:Es; cbn [negb].
  - exists []. rewrite app_nil_r.
    split; [destruct (py_item account "Name"); reflexivity|intros ? ? []].
  - exists [(aid, update_data)].
    split; [destruct (py_item account "Name"); reflexivity|].
    intros a p [E|[]]. injection E as <- <-. split; [reflexivity|].
    exists entry. split; [reflexivity|]. split; [rewrite EB; reflexivity|].
    intros ->. rewrite map_size_empty in Es. discriminate.
Qed.

(** X12.  However the apply pass ends, each CRM update it attempted is for
    a record of the list that has a cached document, and carries that
    record's payload, which is not empty. *)
Theorem update_attempts_carry_payloads
  (Account_update : string -> gmap string Value -> bool)
  (accounts : list string) (lg : list LogEntry) (r : Run) :
  exists news,
    crm_updates (fst (apply_loop Account_get Account_update accounts lg r)) =
      crm_updates r ++ news /\
    forall aid p, In (aid, p) news ->
      In aid accounts /\
      exists entry, person_selection_state (ss r) !! aid = Some entry /\
                    p = fst (payload_for (ss r) aid entry) /\ p <> ∅.
Proof.
  revert lg r. induction accounts as [|aid rest IH]; intros lg r.
  - exists []. rewrite app_nil_r. split; [reflexivity|intros ? ? []].
  - cbn [apply_loop]. unfold mbind.
    destruct (apply_account_updates Account_update aid lg r) as (n1 & E1 & P1).
    pose proof (apply_account_ss Account_get Account_update aid lg r) as S1.
    destruct (apply_account Account_get Account_update aid lg r) as [r1 [lg1|e]];
      cbn [fst] in *.
    + destruct (IH lg1 r1) as (n2 & E2 & P2).
      exists (n1 ++ n2). rewrite E2, E1, app_assoc. split; [reflexivity|].
      intros a p Hin. apply in_app_or in Hin as [Hin|Hin].
      * destruct (P1 a p Hin) as (-> & H). split; [left; reflexivity|exact H].
      * destruct (P2 a p Hin) as (Ha & H). split; [right; exact Ha|].
        rewrite S1 in H. exact H.
    + exists n1. split; [exact E1|].
      intros a p Hin. destruct (P1 a p Hin) as (-> & H).
      split; [left; reflexivity|exact H].
Qed.

End ApplyPass.

(** * The operator's choice *)

Lemma find_ceo_none (people : list Value) :
  Forall (fun p => well_formed_person p = true) people ->
  Forall (fun p => is_ceo_title p = false) people ->
  find_ceo people = Ok VNone.
Proof.
  induction 1 as [|p ps Hp _ IH]; intros Hno; [reflexivity|].
  inversion Hno as [|? ? Hc Hrest]; subst.
  destruct p as [| | | | | |d]; try discriminate.
  unfold is_ceo_title in Hc. simpl in *.
  destruct (dlookup "fullName" d); [|discriminate].
  destruct (dlookup "title" d) as [[| | | |t| |]|]; try discriminate.
  simpl in *. rewrite Hc. exact (IH Hrest).
Qed.

Lemma find_named_finds (n : Value) (people : list Value) :
  Forall (fun p => well_formed_person p = true) people ->
  Exists (fun p => exists m, py_item p "fullName" = Ok m /\ py_eq m n = true)
    people ->
  exists p m, find_named n people = Ok p /\ In p people /\
              py_item p "fullName" = Ok m /\ py_eq m n = true.
Proof.
  induction 1 as [|p ps Hp Hps IH]; intros Hex; [inversion Hex|].
  destruct p as [| | | | | |d]; try discriminate.
  simpl in Hp. simpl.
  destruct (dlookup "fullName" d) as [m|] eqn:Em; [|discriminate].
  simpl. destruct (py_eq m n) eqn:E.
  - exists (VDict d), m. unfold py_item. rewrite Em. auto.
  - assert (Hex' : Exists (fun p => exists m, py_item p "fullName" = Ok m /\
                                              py_eq m n = true) ps).
    { inversion Hex as [? ? (m' & H1 & H2)|? ? H0]; subst; [|exact H0].
      unfold py_item in H1. rewrite Em in H1. injection H1 as <-. congruence. }
    destruct (IH Hex') as (q & m' & H1 & H2 & H3 & H4).
    exists q, m'. auto.
Qed.

Section Operator.

Variable selectbox : string -> list Value -> nat -> Value.

(** X13.  When nobody on a well-formed people list is the managing director
    and the operator's select box holds a name of the list, the selector
    stores the first person with that name under the key of the record and
    field and returns [True]. *)
Theorem operator_choice_is_stored
  (aid : string) (vat : Value) (f : string) (people names : list Value)
  (n : Value) (r : Run) :
  Forall (fun p => well_formed_person p = true) people ->
  Forall (fun p => is_ceo_title p = false) people ->
  full_names people = Ok names ->
  match selected_people (ss r) !! selection_key aid f with
  | Some c => well_formed_person c = true
  | None => True
  end ->
  (forall i, selectbox ("person_select_" ++ selection_key aid f) names i = n) ->
  truthy n = true ->
  Exists (fun p => exists m, py_item p "fullName" = Ok m /\ py_eq m n = true)
    people ->
  exists p m,
    find_named n people = Ok p /\ In p people /\
    py_item p "fullName" = Ok m /\ py_eq m n = true /\
    show_person_selector selectbox aid vat f (VList people) r =
      (on_ss (with_selection (selection_key aid f) p) r, Ok true).
Proof.
  intros Hwf Hno Hnames Hcur Hsel Hn Hex.
  destruct (find_named_finds n people Hwf Hex) as (p & m & Hf & Hin & Hm & He).
  exists p, m. repeat (split; [assumption|]).
  unfold show_person_selector, mbind, lift, ret, get_ss, store_selection, modify,
    mbind.
  simpl py_iter. cbv iota. rewrite Hnames, (find_ceo_none people Hwf Hno).
  cbn [truthy]. cbv iota.
  destruct (selected_people (ss r) !! selection_key aid f) as [c|].
  - destruct c as [| | | | | |d]; try discriminate. simpl in Hcur.
    destruct (dlookup "fullName" d) as [cn|] eqn:Ec; [|discriminate].
    assert (Ht : truthy (VDict d) = true) by (destruct d; [discriminate|reflexivity]).
    rewrite Ht. unfold py_item at 1. rewrite Ec. cbv iota beta.
    rewrite Hsel, Hn, Hf. reflexivity.
  - cbn [truthy]. cbv iota beta. rewrite Hsel, Hn, Hf. reflexivity.
Qed.




End Operator.

(** * The page *)

Lemma dict_get_set_eq (k v : string) (d : list (string * string)) :
  dict_get k (dict_set k v d) = Some v.
Proof.
  induction d as [|[k' v'] r IH]; simpl; [rewrite String.eqb_refl; reflexivity|].
  destruct (String.eqb k k') eqn:E; simpl; rewrite ?String.eqb_refl, ?E; auto.
Qed.

Lemma dict_get_set_ne (k g v : string) (d : list (string * string)) :
  g <> k -> dict_get g (dict_set k v d) = dict_get g d.
Proof.
  intros Hne. induction d as [|[k' v'] r IH]; simpl.
  - destruct (String.eqb_spec g k); [congruence|reflexivity].
  - destruct (String.eqb_spec k k') as [->|Hk]; simpl.
    + destruct (String.eqb_spec g k'); [congruence|reflexivity].
    + destruct (String.eqb g k'); [reflexivity|exact IH].
Qed.

Lemma dict_get_fresh (k : string) (d : list (string * string)) :
  ~ In k (map fst d) -> dict_get k d = None.
Proof.
  induction d as [|[k' v'] r IH]; simpl; [reflexivity|].
  intros H. destruct (String.eqb_spec k k') as [->|Hk]; [tauto|].
  apply IH. tauto.
Qed.

Lemma dict_get_del_eq (k : string) (d : list (string * string)) :
  List.NoDup (map fst d) -> dict_get k (dict_del k d) = None.
Proof.
  induction d as [|[k' v'] r IH]; simpl; [reflexivity|].
  intros Hnd. apply NoDup_cons_iff in Hnd as [Hk Hnd].
  destruct (String.eqb_spec k k') as [->|Hne]; simpl.
  - apply dict_get_fresh. exact Hk.
  - destruct (String.eqb_spec k k'); [congruence|auto].
Qed.

Lemma dict_get_del_ne (k g : string) (d : list (string * string)) :
  g <> k -> dict_get g (dict_del k d) = dict_get g d.
Proof.
  intros Hne. induction d as [|[k' v'] r IH]; simpl; [reflexivity|].
  destruct (String.eqb_spec k k') as [->|Hk]; simpl.
  - destruct (String.eqb_spec g k'); [congruence|reflexivity].
  - destruct (String.eqb g k'); [reflexivity|exact IH].
Qed.

Lemma dict_set_keys (k v : string) (d : list (string * string)) (g : string) :
  In g (map fst (dict_set k v d)) -> g = k \/ In g (map fst d).
Proof.
  induction d as [|[k' v'] r IH]; simpl.
  - intros [<-|[]]. auto.
  - destruct (String.eqb_spec k k') as [->|Hk]; simpl; [tauto|].
    intros [<-|H]; [tauto|]. destruct (IH H); tauto.
Qed.

Lemma dict_set_nodup (k v : string) (d : list (string * string)) :
  List.NoDup (map fst d) -> List.NoDup (map fst (dict_set k v d)).
Proof.
  induction d as [|[k' v'] r IH]; simpl; intros Hnd.
  - constructor; [intros []|constructor].
  - apply NoDup_cons_iff in Hnd as [Hk Hnd].
    destruct (String.eqb_spec k k') as [->|Hne]; simpl.
    + constructor; assumption.
    + constructor; [|auto]. intros H. apply dict_set_keys in H as [H|H]; congruence.
Qed.

Lemma dict_del_keys (k : string) (d : list (string * string)) (g : string) :
  In g (map fst (dict_del k d)) -> In g (map fst d).
Proof.
  induction d as [|[k' v'] r IH]; simpl; [tauto|].
  destruct (String.eqb k k'); simpl; tauto.
Qed.

Lemma dict_del_nodup (k : string) (d : list (string * string)) :
  List.NoDup (map fst d) -> List.NoDup (map fst (dict_del k d)).
Proof.
  induction d as [|[k' v'] r IH]; simpl; intros Hnd; [constructor|].
  apply NoDup_cons_iff in Hnd as [Hk Hnd].
  destruct (String.eqb k k'); simpl; [exact Hnd|].
  constructor; [|auto]. intros H. apply Hk. exact (dict_del_keys _ _ _ H).
Qed.

Lemma catalog_item_In (category : string)
  (catalog : list (string * list (string * string))) :
  In category (map fst catalog) ->
  exists fields, catalog_item category catalog = Ok fields /\
                 In (category, fields) catalog.
Proof.
  induction catalog as [|[c fs] r IH]; simpl; [tauto|].
  intros H. destruct (String.eqb_spec category c) as [->|Hne].
  - exists fs. auto.
  - destruct H as [H|H]; [congruence|].
    destruct (IH H) as (fields & E & Hin). eauto.
Qed.

Lemma catalog_paths_resolvable (path : string) :
  In path catalog_paths -> resolvable path = true.
Proof.
  assert (H : forallb resolvable catalog_paths = true) by (vm_compute; reflexivity).
  rewrite forallb_forall in H. apply H.
Qed.

Section Form.

Variable selectbox : string -> list string -> nat -> string.

Lemma mapping_row_spec (f : string) (m : list (string * string)) :
  picks_an_option selectbox -> List.NoDup (map fst m) ->
  exists m',
    mapping_row selectbox f m = Ok m' /\
    List.NoDup (map fst m') /\
    (forall g, g <> f -> dict_get g m' = dict_get g m) /\
    (dict_get f m' = dict_get f m \/ dict_get f m' = None \/
     exists path, dict_get f m' = Some path /\ In path catalog_paths).
Proof.
  intros Hpick Hnd. unfold mapping_row.
  set (cur := match dict_get f m with Some p => p | None => "" end).
  set (cat0 := if negb (String.eqb cur "") then _ else "").
  set (categories := "" :: map fst get_profinder_fields).
  pose proof (Hpick ("category_select_" ++ f)%string categories
                (index_or_0 cat0 categories) ltac:(discriminate)) as Hc.
  set (sc := selectbox _ categories _) in *.
  destruct (String.eqb_spec sc "") as [E|Hne]; cbn [negb].
  { exists m. auto. }
  destruct Hc as [Hc|Hc]; [congruence|].
  destruct (catalog_item_In sc get_profinder_fields Hc) as (fields & Ef & Hin).
  rewrite Ef. cbn [bind].
  set (options := "" :: map _ fields).
  pose proof (Hpick ("field_select_" ++ f)%string options
                (index_or_0 cur options) ltac:(discriminate)) as Ho.
  set (sfld := selectbox _ options _) in *.
  destruct (String.eqb_spec sfld "") as [E|Hs]; cbn [negb].
  - destruct (dict_get f m) eqn:Eg; [|exists m; auto].
    exists (dict_del f m). split; [reflexivity|]. split; [apply dict_del_nodup, Hnd|].
    split; [intros g Hg; apply dict_get_del_ne, Hg|].
    right. left. apply dict_get_del_eq, Hnd.
  - exists (dict_set f sfld m). split; [reflexivity|].
    split; [apply dict_set_nodup, Hnd|].
    split; [intros g Hg; apply dict_get_set_ne, Hg|].
    right. right. exists sfld. split; [apply dict_get_set_eq|].
    destruct Ho as [Ho|Ho]; [congruence|].
    apply in_map_iff in Ho as (kv & <- & Hkv).
    unfold catalog_paths. apply in_flat_map. exists (sc, fields).
    split; [exact Hin|]. apply in_map_iff. exists kv. auto.
Qed.

(** X17.  Whatever the operator picks, a pass over the rows of the mapping
    form succeeds; a field that has no row keeps its mapping, and a field
    with a row keeps its mapping, loses it, or gets one of the offered
    paths; the mappings stay a dict. *)
Theorem mapping_form_changes_only_its_rows
  (fields : list string) (m : list (string * string)) :
  picks_an_option selectbox -> List.NoDup (map fst m) ->
  exists m',
    mapping_rows selectbox fields m = Ok m' /\
    List.NoDup (map fst m') /\
    (forall g, ~ In g fields -> dict_get g m' = dict_get g m) /\
    (forall g, dict_get g m' = dict_get g m \/ dict_get g m' = None \/
               exists path, dict_get g m' = Some path /\ In path catalog_paths).
Proof.
  intros Hpick. revert m. induction fields as [|f rest IH]; intros m Hnd.
  - exists m. simpl. auto.
  - destruct (mapping_row_spec f m Hpick Hnd) as (m1 & E1 & N1 & O1 & F1).
    destruct (IH m1 N1) as (m2 & E2 & N2 & O2 & F2).
    exists m2. simpl. rewrite E1. simpl. split; [exact E2|]. split; [exact N2|].
    split.
    + intros g Hg. rewrite O2 by (intros H; apply Hg; right; exact H).
      apply O1. intros ->. apply Hg. left. reflexivity.
    + intros g. destruct (F2 g) as [H|[H|H]]; [|auto|auto].
      rewrite H. destruct (String.eqb_spec g f) as [->|Hne]; [exact F1|].
      left. apply O1. exact Hne.
Qed.

(** X18.  The default mappings hold offered paths only, a pass over the
    mapping form keeps it so, and every offered path has a branch in the
    resolver and names one attribute: the page never holds a mapping the
    resolver passes over. *)
Theorem mappings_stay_resolvable
  (fields : list string) (m : list (string * string)) :
  catalog_mappings default_field_mappings /\
  (picks_an_option selectbox -> catalog_mappings m ->
   exists m',
     mapping_rows selectbox fields m = Ok m' /\ catalog_mappings m' /\
     forall g path, dict_get g m' = Some path -> resolvable path = true).
Proof.
  split.
  - split.
    + simpl. repeat (constructor; [simpl; intuition discriminate|]). constructor.
    + intros g path H.
      assert (A : forallb (fun kv => existsb (String.eqb (snd kv)) catalog_paths)
                    default_field_mappings = true) by (vm_compute; reflexivity).
      rewrite forallb_forall in A.
      assert (Hin : In (g, path) default_field_mappings).
      { clear A. revert H. generalize default_field_mappings.
        induction l as [|[k v] r IH]; simpl; [discriminate|].
        destruct (String.eqb_spec g k) as [->|Hne].
        - intros E. injection E as ->. left. reflexivity.
        - intros E. right. exact (IH E). }
      specialize (A _ Hin). cbn [snd] in A.
      apply existsb_exists in A as (q & Hq & E).
      apply String.eqb_eq in E. subst q. exact Hq.
  - intros Hpick [Hnd Hcat].
    revert m Hnd Hcat. induction fields as [|f rest IH]; intros m Hnd Hcat.
    + exists m. split; [reflexivity|]. split; [split; assumption|].
      intros g path H. apply catalog_paths_resolvable. eauto.
    + destruct (mapping_row_spec f m Hpick Hnd) as (m1 & E1 & N1 & O1 & F1).
      assert (C1 : forall g path, dict_get g m1 = Some path -> In path catalog_paths).
      { intros g path H. destruct (String.eqb_spec g f) as [->|Hne].
        - destruct F1 as [F|[F|(q & F & Hq)]].
          + rewrite F in H. eauto.
          + congruence.
          + rewrite F in H. injection H as <-. exact Hq.
        - rewrite (O1 g Hne) in H. eauto. }
      destruct (IH m1 N1 C1) as (m2 & E2 & C2 & R2).
      exists m2. simpl. rewrite E1. simpl. auto.
Qed.

End Form.

Section TickBoxes.

Variable state_key : Value -> string.

Lemma select_all_keeps_ticks (accounts : list MissingRow) :
  forall (state : gmap string Value) (k : string),
    state !! k = Some (VBool true) ->
    select_all_accounts state_key accounts state !! k = Some (VBool true).
Proof.
  induction accounts as [|a r IH]; intros state k H; [exact H|].
  simpl. apply IH. destruct (decide (state_key (row_Id a) = k)) as [->|Hne].
  - apply lookup_insert_eq.
  - rewrite lookup_insert_ne by exact Hne. exact H.
Qed.

Lemma select_all_ticks (accounts : list MissingRow) :
  forall (state : gmap string Value) (a : MissingRow),
    In a accounts ->
    select_all_accounts state_key accounts state !! state_key (row_Id a) =
    Some (VBool true).
Proof.
  induction accounts as [|b r IH]; intros state a Hin; [destruct Hin|].
  destruct Hin as [->|Hin]; simpl.
  - apply select_all_keeps_ticks, lookup_insert_eq.
  - apply IH. exact Hin.
Qed.

(** X16.  After "Select All" every listed account is ticked: the ticked
    ids are the ids of the list, in its order. *)
Theorem select_all_ticks_every_account
  (accounts : list MissingRow) (state : gmap string Value) :
  ticked_accounts state_key accounts
    (select_all_accounts state_key accounts state) = map row_Id accounts.
Proof.
  unfold ticked_accounts. f_equal.
  generalize (select_all_ticks accounts state).
  generalize (select_all_accounts state_key accounts state). intros st H.
  induction accounts as [|a r IH]; [reflexivity|].
  simpl. rewrite (H a (or_introl eq_refl)). simpl. f_equal.
  apply IH. intros b Hb. apply H. right. exact Hb.
Qed.

End TickBoxes.

(** * Errors of the missing-data selector *)

Lemma missing_rows_outcome (sf : list string) (records : list Value) :
  Forall (fun a => is_dict a = true) records ->
  (missing_rows sf records = Raise KeyError /\
   exists d, In (VDict d) records /\ dlookup "Id" d = None /\
             exists f, In f sf /\ is_missing d f = true)
  \/ (exists rows, missing_rows sf records = Ok rows /\
       forall d, In (VDict d) records ->
                 (exists f, In f sf /\ is_missing d f = true) ->
                 dlookup "Id" d <> None).
Proof.
  induction 1 as [|a r Ha _ IH].
  - right. exists []. split; [reflexivity|]. intros d [].
  - destruct a as [| | | | | |d]; try discriminate.
    simpl missing_rows. unfold missing_row. rewrite missing_fields_filter.
    simpl bind.
    destruct (List.filter (is_missing d) sf) as [|m ms] eqn:Ef.
    + simpl bind. destruct IH as [(E & d' & Hin & Hid & Hm)|(rows & E & Hok)].
      * left. rewrite E. split; [reflexivity|]. exists d'. split; [right|]; auto.
      * right. rewrite E. exists rows. split; [reflexivity|].
        intros d' [Ed|Hin] Hm; [|eauto]. injection Ed as <-.
        apply filter_nonempty_iff in Hm. congruence.
    + assert (Hm : exists f, In f sf /\ is_missing d f = true)
        by (apply filter_nonempty_iff; rewrite Ef; discriminate).
      unfold py_item, py_get_default.
      destruct (dlookup "Id" d) as [id|] eqn:Eid.
      * simpl bind. destruct IH as [(E & d' & Hin & Hid & Hm')|(rows & E & Hok)].
        -- left. rewrite E. split; [reflexivity|]. exists d'. split; [right|]; auto.
        -- right. rewrite E. eexists. split; [reflexivity|].
           intros d' [Ed|Hin] Hm'; [|eauto]. injection Ed as <-. congruence.
      * left. split; [reflexivity|]. exists d. split; [left; reflexivity|]. auto.
Qed.

(** X15.  On dict records the selector fails only with [KeyError], and it
    does so exactly when some record with a missing field of interest has
    no [Id]; a record without [Id] whose fields are all present does no
    harm. *)
Theorem selector_fails_only_for_a_missing_id
  (sf : list string) (records : list Value) :
  Forall (fun a => is_dict a = true) records ->
  (fetch_accounts_with_missing_data sf records = Raise KeyError <->
   exists d, In (VDict d) records /\ dlookup "Id" d = None /\
             exists f, In f sf /\ is_missing d f = true)
  /\ (forall e, fetch_accounts_with_missing_data sf records = Raise e ->
                e = KeyError).
Proof.
  intros Hd. unfold fetch_accounts_with_missing_data.
  destruct sf as [|f0 sf'].
  - split; [|intros e H; discriminate].
    split; [discriminate|intros (d & _ & _ & f & [] & _)].
  - destruct (missing_rows_outcome (f0 :: sf') records Hd)
      as [(E & Hex)|(rows & E & Hok)]; rewrite E.
    + split; [tauto|]. intros e H. injection H as <-. reflexivity.
    + split; [|intros e H; discriminate].
      split; [discriminate|]. intros (d & Hin & Hid & Hm).
      exfalso. exact (Hok d Hin Hm Hid).
Qed.

(** * The further properties, run on the small world *)

Lemma cached_record_is_not_refetched_witness :
  fetch_account crm_example provider_down no_operator "001" first_pass_init
    (fst first_run_example) =
  fetch_account crm_example provider_example no_operator "001" first_pass_init
    (fst first_run_example)
  /\ person_selection_state
       (ss (fst (fetch_account crm_example provider_example no_operator "001"
                   first_pass_init (fst first_run_example)))) !! "001" =
     person_selection_state (ss (fst first_run_example)) !! "001".
Proof.
  apply (cached_record_is_not_refetched crm_example provider_example no_operator
           provider_down "001" first_pass_init (fst first_run_example)).
  vm_compute. eexists. reflexivity.
Defined.

Lemma unusable_record_is_logged_and_skipped_witness :
  fetch_account crm_no_vat provider_example no_operator "002" first_pass_init
    session_example =
    (session_example, Ok (add_log (NoVat (VStr "S")) first_pass_init))
  /\ fetch_account crm_example provider_down no_operator "001" first_pass_init
    session_example =
    (session_example, Ok (add_log (FetchFailed (VStr "R")) first_pass_init)).
Proof.
  split.
  - apply (proj1 (unusable_record_is_logged_and_skipped crm_no_vat provider_example
                    no_operator "002" _ (VStr "S") first_pass_init session_example
                    eq_refl eq_refl)).
    reflexivity.
  - apply (proj2 (unusable_record_is_logged_and_skipped crm_example provider_down
                    no_operator "001" _ (VStr "R") first_pass_init session_example
                    eq_refl eq_refl)).
    + reflexivity.
    + reflexivity.
    + left. reflexivity.
Defined.

Lemma session_record_list_is_fixed_witness :
  selected_accounts
    (ss (fst (enrichment_section crm_example provider_example crm_rejects
                no_operator NoClick ["002"; "003"] session_example))) = ["001"].
Proof.
  apply (session_record_list_is_fixed crm_example provider_example crm_rejects
           no_operator NoClick ["002"; "003"] session_example).
  - reflexivity.
  - left. reflexivity.
Defined.

Lemma apply_pass_survives_rejected_updates_witness :
  exists r1,
    (forall Account_update lg,
        exists l, apply_loop crm_example Account_update ["001"] lg
                    (fst first_run_example) = (r1, Ok (lg ++ l)) /\
                  List.length l =
                  List.length (cached_accounts (ss (fst first_run_example)) ["001"])) /\
    ss r1 = ss (fst first_run_example).
Proof.
  apply (apply_pass_survives_rejected_updates crm_example ["001"]
           (fst first_run_example)).
  intros aid _. eexists. eexists. split; reflexivity.
Defined.

Lemma operator_choice_is_stored_witness :
  exists p m,
    find_named (VStr "Mika Laine") people_no_ceo = Ok p /\ In p people_no_ceo /\
    py_item p "fullName" = Ok m /\ py_eq m (VStr "Mika Laine") = true /\
    show_person_selector operator_picks_mika "001" (VStr "FI123")
      "Yhteyshenkilo__c" (VList people_no_ceo) run_example =
      (on_ss (with_selection (selection_key "001" "Yhteyshenkilo__c") p)
         run_example, Ok true).
Proof.
  apply (operator_choice_is_stored operator_picks_mika "001" (VStr "FI123")
           "Yhteyshenkilo__c" people_no_ceo
           [VStr "Aino Virtanen"; VStr "Mika Laine"] (VStr "Mika Laine")
           run_example).
  - repeat constructor.
  - repeat constructor.
  - reflexivity.
  - vm_compute. exact I.
  - intros i. reflexivity.
  - reflexivity.
  - right. left. eexists. split; reflexivity.
Defined.


Lemma pick_last_picks_an_option : picks_an_option pick_last.
Proof.
  intros key options index Hne. unfold pick_last.
  induction options as [|o r IH]; [congruence|].
  destruct r as [|o' r']; [left; reflexivity|].
  right. apply IH. discriminate.
Defined.

Lemma default_field_mappings_nodup : List.NoDup (map fst default_field_mappings).
Proof.
  simpl. repeat (constructor; [simpl; intuition discriminate|]). constructor.
Defined.

Lemma mapping_form_changes_only_its_rows_witness :
  exists m',
    mapping_rows pick_last ["Phone"] default_field_mappings = Ok m' /\
    List.NoDup (map fst m') /\
    (forall g, ~ In g ["Phone"] ->
               dict_get g m' = dict_get g default_field_mappings) /\
    (forall g, dict_get g m' = dict_get g default_field_mappings \/
               dict_get g m' = None \/
               exists path, dict_get g m' = Some path /\ In path catalog_paths).
Proof.
  exact (mapping_form_changes_only_its_rows pick_last ["Phone"]
           default_field_mappings pick_last_picks_an_option
           default_field_mappings_nodup).
Defined.

Example mapping_form_last_option :
  option_map (dict_get "Phone")
    (match mapping_rows pick_last ["Phone"] default_field_mappings with
     | Ok m => Some m
     | Raise _ => None
     end) = Some (Some "eAddresses.first.serviceID").
Proof. vm_compute. reflexivity. Qed.

Lemma mappings_stay_resolvable_witness :
  exists m',
    mapping_rows pick_last ["Phone"; "Name"] default_field_mappings = Ok m' /\
    catalog_mappings m' /\
    forall g path, dict_get g m' = Some path -> resolvable path = true.
Proof.
  refine (proj2 (mappings_stay_resolvable pick_last ["Phone"; "Name"]
                   default_field_mappings) pick_last_picks_an_option _).
  exact (proj1 (mappings_stay_resolvable pick_last [] [])).
Defined.

Lemma selector_fails_only_for_a_missing_id_witness :
  fetch_accounts_with_missing_data ["Name"; "Phone"] [record_full; record_no_id] =
  Raise KeyError.
Proof.
  apply (proj1 (selector_fails_only_for_a_missing_id ["Name"; "Phone"]
                  [record_full; record_no_id] ltac:(repeat constructor))).
  exists [("Name", VStr "U"); ("Phone", VStr ""); ("VatNumber__c", VStr "FI000")].
  split; [right; left; reflexivity|]. split; [reflexivity|].
  exists "Phone". split; [right; left; reflexivity|reflexivity].
Defined.

(** * More on the selector and the first pass *)

Lemma full_names_named (people : list Value) :
  Forall (fun p => has_full_name p = true) people ->
  exists ns, full_names people = Ok ns.
Proof.
  induction 1 as [|p ps Hp _ [ns IH]]; [exists []; reflexivity|].
  destruct p as [| | | | | |d]; try discriminate. simpl in *.
  destruct (dlookup "fullName" d) as [n|]; [|discriminate].
  rewrite IH. simpl. eauto.
Qed.

Lemma find_ceo_first (before after : list Value) (c : Value) :
  Forall (fun p => well_formed_person p = true) before ->
  Forall (fun p => is_ceo_title p = false) before ->
  is_ceo_title c = true ->
  find_ceo (before ++ c :: after) = Ok c /\ truthy c = true.
Proof.
  intros Hwf Hno Hc. induction Hwf as [|p ps Hp _ IH].
  - cbn [app find_ceo]. unfold is_ceo_title in Hc.
    destruct (py_item c "title") as [t|] eqn:Et; [|discriminate].
    destruct (py_lower t) as [l|] eqn:El; [|discriminate].
    cbn [bind]. rewrite El. cbn [bind]. rewrite Hc.
    split; [reflexivity|].
    destruct c as [| | | | | |[|b d]]; try discriminate. reflexivity.
  - inversion Hno as [|? ? Hp' Hrest]; subst.
    destruct p as [| | | | | |d]; try discriminate.
    unfold is_ceo_title in Hp'. simpl in Hp, Hp' |- *.
    destruct (dlookup "fullName" d); [|discriminate].
    destruct (dlookup "title" d) as [[| | | |t| |]|]; try discriminate.
    simpl in *. rewrite Hp'. exact (IH Hrest).
Qed.

Lemma full_names_key_error (people : list Value) :
  Forall (fun p => is_dict p = true) people ->
  Exists (fun p => has_full_name p = false) people ->
  full_names people = Raise KeyError.
Proof.
  induction 1 as [|p ps Hp Hps IH]; intros Hex; [inversion Hex|].
  destruct p as [| | | | | |d]; try discriminate. simpl in *.
  destruct (dlookup "fullName" d) as [n|] eqn:En; [|reflexivity].
  simpl. rewrite IH; [reflexivity|].
  inversion Hex as [? ? H0|? ? H0]; subst; [|exact H0].
  simpl in H0. rewrite En in H0. discriminate.
Qed.

Section SelectorEdges.

Variable Account_get : string -> exn Value.
Variable selectbox : string -> list Value -> nat -> Value.

(** X20.  The managing director the selector stores is the first one
    listed.  The entries before it must be well formed; of the entries
    after it only the names are read, so a later entry without a title
    does no harm. *)
Theorem first_managing_director_wins
  (aid : string) (vat : Value) (f : string) (before after : list Value)
  (c : Value) (r : Run) :
  Forall (fun p => well_formed_person p = true) before ->
  Forall (fun p => is_ceo_title p = false) before ->
  well_formed_person c = true -> is_ceo_title c = true ->
  Forall (fun p => has_full_name p = true) after ->
  show_person_selector selectbox aid vat f (VList (before ++ c :: after)) r =
    (on_ss (with_selection (selection_key aid f) c) r, Ok true).
Proof.
  intros Hwf Hno Hc Ht Hafter.
  destruct (find_ceo_first before after c Hwf Hno Ht) as [Ef Htr].
  assert (Hn : Forall (fun p => has_full_name p = true) (before ++ c :: after)).
  { apply Forall_app. split.
    - eapply List.Forall_impl; [|exact Hwf]. intros p Hp.
      destruct p as [| | | | | |d]; try discriminate. simpl in *.
      destruct (dlookup "fullName" d); [reflexivity|discriminate].
    - constructor; [|exact Hafter].
      destruct c as [| | | | | |d]; try discriminate. simpl in *.
      destruct (dlookup "fullName" d); [reflexivity|discriminate]. }
  destruct (full_names_named _ Hn) as [ns Hns].
  unfold show_person_selector, mbind, lift, ret, store_selection, modify, mbind.
  simpl py_iter. cbv iota. rewrite Hns, Ef. cbv iota. rewrite Htr. reflexivity.
Qed.

(** X21.  A person without a [fullName] anywhere on the list makes the
    selector raise [KeyError], also when a managing director is listed;
    the session is left as it was. *)
Theorem nameless_person_breaks_the_selector
  (aid : string) (vat : Value) (f : string) (people : list Value) (r : Run) :
  Forall (fun p => is_dict p = true) people ->
  Exists (fun p => has_full_name p = false) people ->
  show_person_selector selectbox aid vat f (VList people) r = (r, Raise KeyError).
Proof.
  intros Hd Hex.
  unfold show_person_selector, mbind, lift.
  simpl py_iter. cbv iota. rewrite (full_names_key_error people Hd Hex).
  reflexivity.
Qed.

Lemma fetch_account_cached (P P' : Value -> Value) (aid : string)
  (a : FirstPass) (r : Run) :
  is_Some (person_selection_state (ss r) !! aid) ->
  fetch_account Account_get P selectbox aid a r =
  fetch_account Account_get P' selectbox aid a r.
Proof.
  intros Hs. unfold fetch_account, mbind, lift, get_ss.
  destruct (Account_get aid) as [account|e]; [|reflexivity].
  destruct (py_get account "VatNumber__c") as [vat|e]; [|reflexivity].
  destruct (negb (truthy vat)); [reflexivity|].
  destruct (person_selection_state (ss r) !! aid) as [c|]; [reflexivity|].
  destruct Hs; discriminate.
Qed.

(** X19.  A first pass over records that are all cached already does not
    depend on the provider: re-entering [enrich_data] between two clicks
    fetches nothing again. *)
Theorem cached_session_is_not_refetched
  (P P' : Value -> Value) (accounts : list string) (a : FirstPass) (r : Run) :
  (forall aid, In aid accounts ->
               is_Some (person_selection_state (ss r) !! aid)) ->
  fetch_loop Account_get P selectbox accounts a r =
  fetch_loop Account_get P' selectbox accounts a r.
Proof.
  revert a r. induction accounts as [|aid rest IH]; intros a r Hall; [reflexivity|].
  cbn [fetch_loop]. unfold mbind.
  rewrite <- (fetch_account_cached P P' aid a r (Hall aid (or_introl eq_refl))).
  pose proof (extending_fetch_account Account_get P selectbox aid a r) as (G & _).
  destruct (fetch_account Account_get P selectbox aid a r) as [r1 [a1|e]];
    [|reflexivity].
  apply IH. intros b Hb. cbn [fst] in G.
  rewrite (grows_cache _ _ G b (Hall b (or_intror Hb))).
  exact (Hall b (or_intror Hb)).
Qed.

End SelectorEdges.

Lemma first_managing_director_wins_witness :
  show_person_selector no_operator "001" (VStr "FI123") "Yhteyshenkilo__c"
    (VList people_two_ceos) run_example =
  (on_ss (with_selection (selection_key "001" "Yhteyshenkilo__c")
            (VDict [("fullName", VStr "Mika Laine");
                    ("title", VStr "Toimitusjohtaja")])) run_example, Ok true).
Proof.
  apply (first_managing_director_wins no_operator "001" (VStr "FI123")
           "Yhteyshenkilo__c"
           [VDict [("fullName", VStr "Aino Virtanen"); ("title", VStr "Talousjohtaja")]]
           [VDict [("fullName", VStr "Olli Niemi"); ("title", VStr "toimitusjohtaja")];
            VDict [("fullName", VStr "Eeva Salo")]]
           (VDict [("fullName", VStr "Mika Laine"); ("title", VStr "Toimitusjohtaja")])
           run_example).
  - repeat constructor.
  - repeat constructor.
  - reflexivity.
  - reflexivity.
  - repeat constructor.
Defined.

Lemma nameless_person_breaks_the_selector_witness :
  show_person_selector no_operator "001" (VStr "FI123") "Yhteyshenkilo__c"
    (VList people_nameless) run_example = (run_example, Raise KeyError).
Proof.
  apply (nameless_person_breaks_the_selector no_operator "001" (VStr "FI123")
           "Yhteyshenkilo__c" people_nameless run_example).
  - repeat constructor.
  - right. left. reflexivity.
Defined.

Lemma cached_session_is_not_refetched_witness :
  fetch_loop crm_example provider_example no_operator ["001"] first_pass_init
    (fst first_run_example) =
  fetch_loop crm_example provider_down no_operator ["001"] first_pass_init
    (fst first_run_example).
Proof.
  apply (cached_session_is_not_refetched crm_example no_operator provider_example
           provider_down ["001"] first_pass_init (fst first_run_example)).
  intros aid [<-|[]]. vm_compute. eexists. reflexivity.
Defined.
